(** * PacketMonitorPanel: a shallow embedding of the mesh traffic monitor

    The development follows [src/components/PacketMonitorPanel.tsx]:
    first the JavaScript values the component touches, then the packet
    record, the memoised view derivations, the per-field display
    functions, the handlers with the effects they emit, the render
    function, and a small step semantics of the mounted component. *)

From Stdlib Require Import ZArith List Bool Ascii String Lia.
From Stdlib Require Import Numbers.DecimalString.
Import ListNotations.

Open Scope string_scope.
Open Scope Z_scope.

(** ** JavaScript values *)

Module Js.

(** A JavaScript string is the sequence of its code units; [String.length]
    is the [length] property.  The strings the component inspects (node
    identifiers, type labels, metadata) are inspected one code unit at a
    time; literal texts outside ASCII are carried as their bytes and never
    measured. *)

(** A number as this component can meet one: an integer-valued double, an
    infinity, or NaN.  Minus zero is identified with zero, from which
    neither truthiness, [===] nor [String] can tell it apart. *)
Inductive number :=
| NaN
| Infinity (negative : bool)
| Fin (z : Z).

(** [ToBoolean] on a number. *)
Definition truthy (n : number) : bool :=
  match n with
  | NaN => false
  | Infinity _ => true
  | Fin z => negb (z =? 0)
  end.

(** [a === b] on numbers: NaN equals nothing, itself included. *)
Definition strict_eq (a b : number) : bool :=
  match a, b with
  | Fin x, Fin y => x =? y
  | Infinity s, Infinity t => Bool.eqb s t
  | _, _ => false
  end.

(** The value of a mathematical integer as a double: round to nearest, ties
    to even, on 53 bits of precision; magnitudes from [2^1024] on overflow. *)
Definition to_double (z : Z) : number :=
  let a := Z.abs z in
  if a <? 2 ^ 53 then Fin z
  else
    let e := Z.log2 a - 52 in
    let q := a / 2 ^ e in
    let r := a mod 2 ^ e in
    let half := 2 ^ (e - 1) in
    let q' := if r <? half then q
              else if half <? r then q + 1
              else if Z.even q then q else q + 1 in
    let v := q' * 2 ^ e in
    if 2 ^ 1024 <=? v then Infinity (z <? 0)
    else Fin (Z.sgn z * v).

(** [String(n)] for an integer below [10^21] in magnitude: its decimal
    digits, with a minus sign when negative. *)
Definition string_of_Z (z : Z) : string :=
  NilZero.string_of_int (Z.to_int z).

(** [s.startsWith(c)] for a one-character pattern. *)
Definition startsWith (s : string) (c : ascii) : bool :=
  match s with
  | String a _ => Ascii.eqb a c
  | EmptyString => false
  end.

(** [s.substring(1)]. *)
Definition substring1 (s : string) : string :=
  match s with
  | String _ r => r
  | EmptyString => EmptyString
  end.

(** White space that [parseInt] skips, among the code units below 256. *)
Definition is_space (c : ascii) : bool :=
  let n := nat_of_ascii c in
  ((9 <=? n) && (n <=? 13))%nat || (n =? 32)%nat || (n =? 160)%nat.

Fixpoint skip_space (s : string) : string :=
  match s with
  | String c r => if is_space c then skip_space r else s
  | EmptyString => EmptyString
  end.

Definition hex_digit (c : ascii) : option Z :=
  let n := Z.of_nat (nat_of_ascii c) in
  if (48 <=? n) && (n <=? 57) then Some (n - 48)
  else if (97 <=? n) && (n <=? 102) then Some (n - 87)
  else if (65 <=? n) && (n <=? 70) then Some (n - 55)
  else None.

(** The longest prefix of hexadecimal digits, read most significant first:
    [None] when there is no digit at all. *)
Fixpoint hex_prefix (acc : option Z) (s : string) : option Z :=
  match s with
  | String c r =>
      match hex_digit c with
      | Some d =>
          hex_prefix (Some (16 * match acc with Some a => a | None => 0 end + d)) r
      | None => acc
      end
  | EmptyString => acc
  end.

Definition strip_sign (s : string) : bool * string :=
  match s with
  | String "-" r => (true, r)
  | String "+" r => (false, r)
  | _ => (false, s)
  end.

Definition strip_0x (s : string) : string :=
  match s with
  | String "0" (String "x" r) => r
  | String "0" (String "X" r) => r
  | _ => s
  end.

(** [parseInt(s, 16)]: leading white space, an optional sign, an optional
    [0x], then the longest run of hexadecimal digits; NaN without one. *)
Definition parseInt16 (s : string) : number :=
  let '(neg, body) := strip_sign (skip_space s) in
  match hex_prefix None (strip_0x body) with
  | None => NaN
  | Some m => to_double (if neg then - m else m)
  end.

End Js.

(** ** [JSON.parse]: which texts it accepts

    The detail overlay hands the metadata string to [JSON.parse], which
    either returns a value or throws a [SyntaxError].  Only that outcome
    matters to the overlay, so the grammar is embedded as a recogniser: a
    pushdown automaton that reads the text one code unit at a time, the
    stack recording the arrays and objects that are still open. *)

Module Json.

Inductive container := InArray | InObject.

Inductive mode :=
| Value                 (* a value is expected *)
| ArrayStart            (* after [[]: a value or []] *)
| ObjectStart           (* after [{]: a key or [}] *)
| Key                   (* after a comma in an object: a key *)
| Colon                 (* after a key: the colon *)
| After                 (* after a value: a comma, a closing bracket or the end *)
| Str (key : bool)      (* inside a string, which is a key or a value *)
| Esc (key : bool)      (* after a backslash *)
| Uni (key : bool) (left : nat)   (* [left] hexadecimal digits of a \u escape to go *)
| Minus | Zero | Int | Dot | Frac | E | ESign | Exp
| Lit (rest : string).  (* inside [true], [false] or [null] *)

Definition config : Type := mode * list container.

Definition is_ws (c : ascii) : bool :=
  let n := nat_of_ascii c in
  ((n =? 9) || (n =? 10) || (n =? 13) || (n =? 32))%nat.

Definition is_digit (c : ascii) : bool :=
  let n := nat_of_ascii c in ((48 <=? n) && (n <=? 57))%nat.

Definition is_digit19 (c : ascii) : bool :=
  let n := nat_of_ascii c in ((49 <=? n) && (n <=? 57))%nat.

Definition is_hex (c : ascii) : bool :=
  match Js.hex_digit c with Some _ => true | None => false end.

Definition is_control (c : ascii) : bool := (nat_of_ascii c <? 32)%nat.

Definition is_escape (c : ascii) : bool :=
  match c with
  | "034"%char | "\"%char | "/"%char | "b"%char | "f"%char
  | "n"%char | "r"%char | "t"%char => true
  | _ => false
  end.

Definition is_e (c : ascii) : bool :=
  match c with "e"%char | "E"%char => true | _ => false end.

(** A value has just ended and [c] follows it. *)
Definition after_step (stack : list container) (c : ascii) : option config :=
  if is_ws c then Some (After, stack)
  else
    match c, stack with
    | ","%char, InArray :: _ => Some (Value, stack)
    | ","%char, InObject :: _ => Some (Key, stack)
    | "]"%char, InArray :: rest => Some (After, rest)
    | "}"%char, InObject :: rest => Some (After, rest)
    | _, _ => None
    end.

(** A value is expected and [c] is not white space. *)
Definition value_step (stack : list container) (c : ascii) : option config :=
  match c with
  | "{"%char => Some (ObjectStart, InObject :: stack)
  | "["%char => Some (ArrayStart, InArray :: stack)
  | "034"%char => Some (Str false, stack)
  | "-"%char => Some (Minus, stack)
  | "0"%char => Some (Zero, stack)
  | "t"%char => Some (Lit "rue", stack)
  | "f"%char => Some (Lit "alse", stack)
  | "n"%char => Some (Lit "ull", stack)
  | _ => if is_digit19 c then Some (Int, stack) else None
  end.

Definition step (cfg : config) (c : ascii) : option config :=
  let '(m, stack) := cfg in
  match m with
  | Value => if is_ws c then Some cfg else value_step stack c
  | ArrayStart =>
      if is_ws c then Some cfg
      else match c, stack with
           | "]"%char, InArray :: rest => Some (After, rest)
           | _, _ => value_step stack c
           end
  | ObjectStart =>
      if is_ws c then Some cfg
      else match c, stack with
           | "}"%char, InObject :: rest => Some (After, rest)
           | "034"%char, _ => Some (Str true, stack)
           | _, _ => None
           end
  | Key =>
      if is_ws c then Some cfg
      else match c with "034"%char => Some (Str true, stack) | _ => None end
  | Colon =>
      if is_ws c then Some cfg
      else match c with ":"%char => Some (Value, stack) | _ => None end
  | After => after_step stack c
  | Str k =>
      match c with
      | "034"%char => Some (if k then Colon else After, stack)
      | "\"%char => Some (Esc k, stack)
      | _ => if is_control c then None else Some (Str k, stack)
      end
  | Esc k =>
      if is_escape c then Some (Str k, stack)
      else match c with "u"%char => Some (Uni k 4, stack) | _ => None end
  | Uni k n =>
      if is_hex c
      then Some (match n with S (S n') => Uni k (S n') | _ => Str k end, stack)
      else None
  | Minus =>
      match c with
      | "0"%char => Some (Zero, stack)
      | _ => if is_digit19 c then Some (Int, stack) else None
      end
  | Zero =>
      match c with
      | "."%char => Some (Dot, stack)
      | _ => if is_e c then Some (E, stack) else after_step stack c
      end
  | Int =>
      if is_digit c then Some (Int, stack)
      else match c with
           | "."%char => Some (Dot, stack)
           | _ => if is_e c then Some (E, stack) else after_step stack c
           end
  | Dot => if is_digit c then Some (Frac, stack) else None
  | Frac =>
      if is_digit c then Some (Frac, stack)
      else if is_e c then Some (E, stack) else after_step stack c
  | E =>
      match c with
      | "+"%char | "-"%char => Some (ESign, stack)
      | _ => if is_digit c then Some (Exp, stack) else None
      end
  | ESign => if is_digit c then Some (Exp, stack) else None
  | Exp => if is_digit c then Some (Exp, stack) else after_step stack c
  | Lit rest =>
      match rest with
      | String c' rest' =>
          if Ascii.eqb c c'
          then Some (match rest' with EmptyString => After | _ => Lit rest' end, stack)
          else None
      | EmptyString => None
      end
  end.

Fixpoint run (cfg : config) (s : string) : option config :=
  match s with
  | EmptyString => Some cfg
  | String c r =>
      match step cfg c with
      | Some cfg' => run cfg' r
      | None => None
      end
  end.

(** The text may end after a complete top-level value. *)
Definition accepting (cfg : config) : bool :=
  match cfg with
  | (After, []) | (Zero, []) | (Int, []) | (Frac, []) | (Exp, []) => true
  | _ => false
  end.

(** [valid s] holds exactly when [JSON.parse(s)] returns. *)
Definition valid (s : string) : bool :=
  match run (Value, []) s with
  | Some cfg => accepting cfg
  | None => false
  end.

End Json.

(** ** Data model *)

(** A double that the component only carries to a formatter (the capture
    timestamp, the signal-to-noise ratio): its 64 bits, never computed on. *)
Inductive double := Double (bits : Z).

(** Modelled from the spec: the declaration of [PacketLog] in
    [types/packet.ts] is not part of the sources.  The fields are the ones
    the component reads; node numbers, codes, counters and sizes are
    integers.  [None] is an absent field; for the fields the
    data model calls nullable it also stands for [null], which every test
    the component applies to them ([??], [||], the paired [!== null] and
    [!== undefined]) treats like [undefined].  The hop counters are
    optional, not nullable: [None] is [undefined]. *)
Record PacketLog := {
  id : Z;
  packet_id : option Z;
  timestamp : double;
  from_node : Z;
  from_node_id : option string;
  from_node_longName : option string;
  to_node : option Z;
  to_node_id : option string;
  to_node_longName : option string;
  portnum : option Z;
  portnum_name : option string;
  channel : option Z;
  snr : option double;
  rssi : option Z;
  hop_start : option Z;
  hop_limit : option Z;
  payload_size : option Z;
  payload_preview : option string;
  encrypted : bool;
  metadata : option string
}.

(** Modelled from the spec: [PacketFilters] of [types/packet.ts], an
    optional port-type selector and an optional encrypted/decoded selector. *)
Record PacketFilters := {
  f_portnum : option Z;
  f_encrypted : option bool
}.

Definition no_filters : PacketFilters :=
  {| f_portnum := None; f_encrypted := None |}.

(** The answer of [getPackets]. *)
Record Response := {
  r_packets : list PacketLog;
  r_total : Z;
  r_maxCount : Z
}.

(** What the contexts and the props supply to a render. *)
Record User := { isAdmin : bool }.
Record AuthStatus := { user : option User }.
Record LocalNodeInfo := { nodeId : option string }.
Record DeviceInfo := { localNodeInfo : option LocalNodeInfo }.

Record Env := {
  hasPermission : string -> string -> bool;
  authStatus : option AuthStatus;
  deviceInfo : option DeviceInfo;
  onNodeClick : bool;                 (* whether the optional callback was passed *)
  formatTimestamp : double -> string; (* locale time and milliseconds *)
  formatDateTime : double -> string;  (* [formatDateTime] under the user settings *)
  toFixed1 : double -> string         (* [x.toFixed(1)] *)
}.

(** The nine [useState] cells. *)
Record State := {
  rawPackets : list PacketLog;
  total : Z;
  maxCount : Z;
  loading : bool;
  autoScroll : bool;
  selectedPacket : option PacketLog;
  filters : PacketFilters;
  showFilters : bool;
  hideOwnPackets : bool
}.

Definition initial : State :=
  {| rawPackets := []; total := 0; maxCount := 1000; loading := true;
     autoScroll := true; selectedPacket := None; filters := no_filters;
     showFilters := false; hideOwnPackets := true |}.

(** ** Truthiness and the [||] chains on optional strings *)

Definition nonempty (s : string) : bool :=
  match s with EmptyString => false | String _ _ => true end.

(** [ToBoolean] on a string that may be absent. *)
Definition truthy_str (o : option string) : bool :=
  match o with Some s => nonempty s | None => false end.

(** [a || b] on strings that may be absent. *)
Definition or_str (a b : option string) : option string :=
  if truthy_str a then a else b.

(** ** View derivation *)

(** [canView]. *)
Definition canView (e : Env) : bool :=
  hasPermission e "channels" "read" && hasPermission e "messages" "read".

(** [authStatus?.user?.isAdmin], as a condition. *)
Definition admin (e : Env) : bool :=
  match authStatus e with
  | Some a => match user a with Some u => isAdmin u | None => false end
  | None => false
  end.

(** [deviceInfo?.localNodeInfo?.nodeId]. *)
Definition ownNodeId (e : Env) : option string :=
  match deviceInfo e with
  | Some d => match localNodeInfo d with Some l => nodeId l | None => None end
  | None => None
  end.

(** [ownNodeNum]: [None] is [undefined]. *)
Definition ownNodeNum (e : Env) : option Js.number :=
  match ownNodeId e with
  | None => None
  | Some s =>
      if negb (nonempty s) || negb (Js.startsWith s "!") then None
      else Some (Js.parseInt16 (Js.substring1 s))
  end.

(** [ToBoolean] on [ownNodeNum]. *)
Definition truthy_num (o : option Js.number) : bool :=
  match o with Some n => Js.truthy n | None => false end.

(** [packet.from_node !== ownNodeNum]. *)
Definition not_from (own : option Js.number) (packet : PacketLog) : bool :=
  match own with
  | Some n => negb (Js.strict_eq (Js.Fin (from_node packet)) n)
  | None => true
  end.

(** [packets], the effective row list. *)
Definition packets (e : Env) (s : State) : list PacketLog :=
  if hideOwnPackets s && truthy_num (ownNodeNum e)
  then filter (not_from (ownNodeNum e)) (rawPackets s)
  else rawPackets s.

(** [packet.portnum_name ?? String(packet.portnum ?? '')]. *)
Definition typeLabel (packet : PacketLog) : string :=
  match portnum_name packet with
  | Some name => name
  | None =>
      match portnum packet with
      | Some code => Js.string_of_Z code
      | None => EmptyString
      end
  end.

Definition label_length (packet : PacketLog) : Z :=
  Z.of_nat (String.length (typeLabel packet)).

(** The [reduce] of [typeColumnWidth]. *)
Definition longestLabel (ps : list PacketLog) : Z :=
  fold_left (fun max packet => Z.max max (label_length packet)) ps 0.

Definition paddingChars : Z := 5.
Definition defaultWidth : Z := 12.

Definition totalChars (ps : list PacketLog) : Z :=
  Z.max (longestLabel ps + paddingChars) defaultWidth.

(** [typeColumnWidth], computed from the effective row list. *)
Definition typeColumnWidth (ps : list PacketLog) : string :=
  Js.string_of_Z (totalChars ps) ++ "ch".

(** [s.substring(0, n)]. *)
Fixpoint take (n : nat) (s : string) : string :=
  match n, s with
  | S n', String c r => String c (take n' r)
  | _, _ => EmptyString
  end.

(** [truncateLongName] with its default [maxLength] of 30. *)
Definition truncateLongName (longName : option string) : option string :=
  match longName with
  | None => None
  | Some s =>
      if negb (nonempty s) then None
      else if (30 <? String.length s)%nat then Some (take 30 s ++ "...")
      else Some s
  end.

(** [getPortnumColor]; an absent code falls to the default. *)
Definition getPortnumColor (code : option Z) : string :=
  match code with
  | Some 1 => "#4a9eff"
  | Some 3 => "#4caf50"
  | Some 4 => "#00bcd4"
  | Some 67 => "#ff9800"
  | Some 70 => "#9c27b0"
  | Some 71 => "#673ab7"
  | Some 5 => "#f44336"
  | Some 6 => "#e91e63"
  | Some 8 => "#4caf50"
  | Some 11 => "#ff5722"
  | Some 32 => "#2196f3"
  | Some 64 | Some 65 | Some 66 => "#795548"
  | Some 72 | Some 73 => "#009688"
  | Some 256 | Some 257 => "#757575"
  | _ => "#9e9e9e"
  end.

(** [calculateHops]: [None] is [null]. *)
Definition calculateHops (packet : PacketLog) : option Z :=
  match hop_start packet, hop_limit packet with
  | Some start, Some limit => Some (start - limit)
  | _, _ => None
  end.

(** ** Rendering *)

(** The element tree a render returns.  A number child is kept as a number;
    handlers appear as attributes that name them.  [JsonPretty s] stands
    for the text [JSON.stringify(JSON.parse(s), null, 2)] of a valid [s]. *)
#[warnings="-register-all"]
Inductive node :=
| Text (s : string)
| Num (z : Z)
| JsonPretty (source : string)
| Elem (tag : string) (attrs : list (string * string)) (children : list node).

(** A render returns its elements or throws. *)
Inductive outcome :=
| Rendered (nodes : list node)
| Throws (error : string).

Definition el (tag className : string) (children : list node) : node :=
  Elem tag [("class", className)] children.

Definition or_empty (o : option string) : string :=
  match o with Some s => s | None => EmptyString end.

(** A string-valued expression as a child: [undefined] renders nothing. *)
Definition str_child (o : option string) : list node :=
  match o with Some s => [Text s] | None => [] end.

(** [x ?? 'N/A'] on a number. *)
Definition num_or_na (o : option Z) : node :=
  match o with Some z => Num z | None => Text "N/A" end.

Definition broadcast_id : string := "!ffffffff".

Definition is_broadcast (to_id : option string) : bool :=
  match to_id with Some s => String.eqb s broadcast_id | None => false end.

Definition node_link (target : string) (children : list node) : node :=
  Elem "span" [("class", "node-id-link"); ("onClick", "handleNodeClick " ++ target)]
       children.

(** The children of the From cell. *)
Definition fromCell (e : Env) (packet : PacketLog) : list node :=
  let name := or_str (truncateLongName (from_node_longName packet)) (from_node_id packet) in
  if truthy_str (from_node_id packet) && onNodeClick e
  then [node_link (or_empty (from_node_id packet)) (str_child name)]
  else if truthy_str name then str_child name else [Num (from_node packet)].

(** The children of the To cell. *)
Definition toCell (e : Env) (packet : PacketLog) : list node :=
  let name := or_str (truncateLongName (to_node_longName packet)) (to_node_id packet) in
  if is_broadcast (to_node_id packet) then [Text "Broadcast"]
  else if truthy_str (to_node_id packet) && onNodeClick e
  then [node_link (or_empty (to_node_id packet)) (str_child name)]
  else if truthy_str name then str_child name
  else match to_node packet with
       | Some z => if z =? 0 then [Text "N/A"] else [Num z]
       | None => [Text "N/A"]
       end.

(** The children of the Type cell: [portnum_name || portnum]. *)
Definition typeCell (packet : PacketLog) : list node :=
  if truthy_str (portnum_name packet) then str_child (portnum_name packet)
  else match portnum packet with Some z => [Num z] | None => [] end.

Definition snrCell (e : Env) (packet : PacketLog) : list node :=
  match snr packet with
  | Some x => [Text (toFixed1 e x)]
  | None => [Text "N/A"]
  end.

(** The children of the Hops cell. *)
Definition hopsCell (packet : PacketLog) : list node :=
  [num_or_na (calculateHops packet)].

Definition encrypted_indicator : node :=
  el "span" "encrypted-indicator" [Text "🔒 <ENCRYPTED>"].

(** [packet.payload_preview || '[No preview]']. *)
Definition preview_text (packet : PacketLog) : string :=
  or_empty (or_str (payload_preview packet) (Some "[No preview]")).

(** The children of the Content cell. *)
Definition contentCell (packet : PacketLog) : list node :=
  if encrypted packet then [encrypted_indicator]
  else [el "span" "content-preview" [Text (preview_text packet)]].

Definition td (className title : string) (children : list node) : node :=
  Elem "td" [("class", className); ("title", title)] children.

Definition is_selected (s : State) (packet : PacketLog) : bool :=
  match selectedPacket s with
  | Some sel => id sel =? id packet
  | None => false
  end.

(** One [<tr>] of the table body. *)
Definition row (e : Env) (s : State) (packet : PacketLog) : node :=
  Elem "tr"
    [("key", Js.string_of_Z (id packet));
     ("onClick", "setSelectedPacket(packet)");
     ("class", if is_selected s packet then "selected" else EmptyString)]
    [ td "packet-table_timestamp" (formatDateTime e (timestamp packet))
         [Text (formatTimestamp e (timestamp packet))];
      td "packet-table_from-node"
         (or_empty (or_str (from_node_longName packet) (from_node_id packet)))
         (fromCell e packet);
      td "packet-table_to-node"
         (or_empty (or_str (to_node_longName packet) (to_node_id packet)))
         (toCell e packet);
      Elem "td" [("class", "packet-table_portnum");
                 ("style.color", getPortnumColor (portnum packet));
                 ("title", or_empty (portnum_name packet))]
           (typeCell packet);
      el "td" "packet-table_channel" [num_or_na (channel packet)];
      el "td" "packet-table_snr" (snrCell e packet);
      el "td" "packet-table_hops" (hopsCell packet);
      el "td" "packet-table_size" [num_or_na (payload_size packet)];
      el "td" "packet-table_content" (contentCell packet) ].

Definition col (width : string) : node :=
  Elem "col" [("style.width", width); ("style.maxWidth", width)] [].

Definition th (className label : string) : node := el "th" className [Text label].

Definition table (e : Env) (s : State) : node :=
  let width := typeColumnWidth (packets e s) in
  el "table" "packet-table"
    [ Elem "colgroup" []
        [ col "15ch"; col "30ch"; col "30ch"; col width; col "4ch"; col "4ch";
          col "4ch"; col "6ch"; Elem "col" [] [] ];
      Elem "thead" []
        [ Elem "tr" []
            [ th "packet-table_timestamp" "Time"; th "packet-table_from-node" "From";
              th "packet-table_to-node" "To"; th "packet-table_portnum" "Type";
              th "packet-table_channel" "Ch"; th "packet-table_snr" "SNR";
              th "packet-table_hops" "Hops"; th "packet-table_size" "Size";
              th "packet-table_content" "Content" ] ];
      Elem "tbody" [] (map (row e s) (packets e s)) ].

(** The table area: loading, empty, or the table. *)
Definition tableArea (e : Env) (s : State) : node :=
  Elem "div" [("class", "packet-table-container"); ("ref", "tableRef")]
    [ if loading s then el "div" "loading" [Text "Loading packets..."]
      else match packets e s with
           | [] => el "div" "no-packets" [Text "No packets logged yet"]
           | _ :: _ => table e s
           end ].

Definition button (className handler title label : string) : node :=
  Elem "button" [("class", className); ("onClick", handler); ("title", title)]
       [Text label].

Definition close_button : node :=
  Elem "button" [("class", "close-btn"); ("onClick", "onClose")] [Text "×"].

(** What the component returns when [canView] fails. *)
Definition deniedView : list node :=
  [ el "div" "packet-monitor-panel"
      [ el "div" "packet-monitor-header"
          [ Elem "h3" [] [Text "Mesh Traffic Monitor"]; close_button ];
        el "div" "packet-monitor-no-permission"
          [ Elem "p" []
              [ Text "You need both "; Elem "strong" [] [Text "channels:read"];
                Text " and "; Elem "strong" [] [Text "messages:read"];
                Text " permissions to view packet logs." ] ] ] ].

Definition header (e : Env) (s : State) : node :=
  el "div" "packet-monitor-header"
    [ Elem "h3" [] [Text "Mesh Traffic Monitor"];
      el "div" "packet-count"
         [Num (total s); Text " / "; Num (maxCount s); Text " packets"];
      el "div" "header-controls"
         ([ button "control-btn" "setAutoScroll(!autoScroll)"
              (if autoScroll s then "Pause auto-scroll" else "Resume auto-scroll")
              (if autoScroll s then "⏸️" else "▶️");
            button "control-btn" "setShowFilters(!showFilters)" "Toggle filters" "🔍" ]
          ++ (if admin e
              then [button "control-btn" "handleClear" "Clear all packets" "🗑️"]
              else [])
          ++ [close_button]) ].

Definition option_ (value label : string) : node :=
  Elem "option" [("value", value)] [Text label].

Definition filterPanel (s : State) : node :=
  el "div" "packet-filters"
    [ Elem "select"
        [("value", match f_portnum (filters s) with
                   | Some z => Js.string_of_Z z
                   | None => EmptyString
                   end);
         ("onChange", "setFilters portnum")]
        [ option_ EmptyString "All Types"; option_ "1" "TEXT_MESSAGE";
          option_ "3" "POSITION"; option_ "4" "NODEINFO"; option_ "5" "ROUTING";
          option_ "6" "ADMIN"; option_ "67" "TELEMETRY"; option_ "70" "TRACEROUTE";
          option_ "71" "NEIGHBORINFO" ];
      Elem "select"
        [("value", match f_encrypted (filters s) with
                   | Some true => "true"
                   | Some false => "false"
                   | None => EmptyString
                   end);
         ("onChange", "setFilters encrypted")]
        [ option_ EmptyString "All Packets"; option_ "true" "Encrypted Only";
          option_ "false" "Decoded Only" ];
      Elem "label" []
        [ Elem "input" [("type", "checkbox");
                        ("checked", if hideOwnPackets s then "true" else "false");
                        ("onChange", "setHideOwnPackets")] [];
          Elem "span" [] [Text "Hide Own Packets"] ];
      Elem "button" [("onClick", "setFilters({})"); ("class", "clear-filters-btn")]
           [Text "Clear Filters"] ].

Definition panel (e : Env) (s : State) : node :=
  el "div" "packet-monitor-panel"
    ([header e s] ++ (if showFilters s then [filterPanel s] else [])
     ++ [tableArea e s]).

(** *** The detail overlay *)

Definition detail_row (label : string) (value : list node) : node :=
  el "div" "detail-row"
    [ el "span" "detail-label" [Text label]; el "span" "detail-value" value ].

(** The children of the To field of the overlay. *)
Definition detailTo (sel : PacketLog) : list node :=
  if is_broadcast (to_node_id sel) then [Text "Broadcast"]
  else
    [Text (or_empty (or_str (or_str (to_node_longName sel) (to_node_id sel))
                            (Some "N/A"))
           ++ " ("
           ++ match to_node sel with
              | Some z => Js.string_of_Z z
              | None => "N/A"
              end
           ++ ")")].

(** The children of the Content field of the overlay. *)
Definition detailContent (sel : PacketLog) : list node :=
  if encrypted sel then [encrypted_indicator]
  else [el "pre" "payload-content" [Text (preview_text sel)]].

(** The Metadata row: absent without metadata; with it, [JSON.parse]
    decides between a row and an exception. *)
Definition detailMetadata (sel : PacketLog) : option (list node) :=
  match metadata sel with
  | Some m =>
      if nonempty m
      then if Json.valid m
           then Some [ el "div" "detail-row"
                         [ el "span" "detail-label" [Text "Metadata:"];
                           el "pre" "metadata-json" [JsonPretty m] ] ]
           else None
      else Some []
  | None => Some []
  end.

Definition optional_row {A : Type} (o : option A) (r : A -> node) : list node :=
  match o with Some a => [r a] | None => [] end.

(** The rows of the overlay above the Metadata row. *)
Definition detailRows (e : Env) (sel : PacketLog) : list node :=
  [ detail_row "ID:" [num_or_na (packet_id sel)];
    detail_row "Timestamp:" [Text (formatDateTime e (timestamp sel))];
    detail_row "From:"
      (str_child (or_str (from_node_longName sel) (from_node_id sel))
       ++ [Text " ("; Num (from_node sel); Text ")"]);
    detail_row "To:" (detailTo sel);
    detail_row "Port:"
      (str_child (portnum_name sel)
       ++ [Text " ("] ++ match portnum sel with Some z => [Num z] | None => [] end
       ++ [Text ")"]);
    detail_row "Channel:" [num_or_na (channel sel)];
    detail_row "Encrypted:" [Text (if encrypted sel then "Yes 🔒" else "No")] ]
  ++ optional_row (snr sel)
       (fun x => detail_row "SNR:" [Text (toFixed1 e x); Text " dB"])
  ++ optional_row (rssi sel) (fun z => detail_row "RSSI:" [Num z; Text " dBm"])
  ++ optional_row (calculateHops sel) (fun h => detail_row "Hops:" [Num h])
  ++ optional_row (payload_size sel)
       (fun z => detail_row "Payload Size:" [Num z; Text " bytes"])
  ++ [detail_row "Content:" (detailContent sel)].

(** The overlay for a selected packet, rendered through a portal. *)
Definition overlay (e : Env) (sel : PacketLog) : outcome :=
  match detailMetadata sel with
  | None => Throws "SyntaxError"
  | Some meta =>
      Rendered
        [ Elem "div" [("class", "packet-detail-modal");
                      ("onClick", "setSelectedPacket(null)")]
            [ Elem "div" [("class", "packet-detail-content");
                          ("onClick", "stopPropagation")]
                [ el "div" "packet-detail-header"
                    [ Elem "h4" [] [Text "Packet Details"];
                      Elem "button" [("class", "close-btn");
                                     ("onClick", "setSelectedPacket(null)")]
                           [Text "×"] ];
                  el "div" "packet-detail-body" (detailRows e sel ++ meta) ] ] ]
  end.

(** The component function: the permission gate, then the panel and, with a
    selected packet, the overlay. *)
Definition render (e : Env) (s : State) : outcome :=
  if negb (canView e) then Rendered deniedView
  else
    match selectedPacket s with
    | None => Rendered [panel e s]
    | Some sel =>
        match overlay e sel with
        | Rendered o => Rendered (panel e s :: o)
        | Throws err => Throws err
        end
    end.

(** ** Handlers and their effects *)

(** What the component does to the outside: service calls, dialogs, log
    entries, timers, the scroll position and the callbacks of the host. *)
Inductive effect :=
| GetPackets (offset limit : Z) (f : PacketFilters)
| ClearPackets
| ConsoleError (message : string)
| Alert (message : string)
| Confirm (message : string)
| SetInterval (ms : Z)
| ClearInterval
| ScrollTop (position : Z)
| OnClose
| OnNodeClick (target : string).

(** What a [fetchPackets] closure captured from its render: the
    dependencies of its [useCallback].  [filters] is compared by identity,
    which [cl_filtersId] stands for. *)
Record Closure := {
  cl_canView : bool;
  cl_filters : PacketFilters;
  cl_filtersId : nat;
  cl_autoScroll : bool
}.

(** [fetchPackets] up to its [await]: the gate, then the request. *)
Definition fetchPackets (c : Closure) : list effect :=
  if negb (cl_canView c) then []
  else [GetPackets 0 100 (cl_filters c)].

(** [fetchPackets] after [getPackets] resolved with [response];
    [tableRef] tells whether [tableRef.current] is set. *)
Definition fetchResolved (c : Closure) (tableRef : bool) (response : Response)
    (s : State) : State * list effect :=
  ({| rawPackets := r_packets response;
      total := r_total response;
      maxCount := r_maxCount response;
      loading := false;
      autoScroll := autoScroll s;
      selectedPacket := selectedPacket s;
      filters := filters s;
      showFilters := showFilters s;
      hideOwnPackets := hideOwnPackets s |},
   if cl_autoScroll c && tableRef then [ScrollTop 0] else []).

(** [fetchPackets] after [getPackets] rejected: the [catch] branch. *)
Definition fetchRejected (s : State) : State * list effect :=
  ({| rawPackets := rawPackets s;
      total := total s;
      maxCount := maxCount s;
      loading := false;
      autoScroll := autoScroll s;
      selectedPacket := selectedPacket s;
      filters := filters s;
      showFilters := showFilters s;
      hideOwnPackets := hideOwnPackets s |},
   [ConsoleError "Failed to fetch packets:"]).

(** [handleClear] up to its [await]; [confirmed] is the answer the user
    gives to the dialog, if it is shown.  The boolean tells whether
    [clearPackets] was called. *)
Definition handleClear_begin (e : Env) (confirmed : bool) : list effect * bool :=
  if negb (admin e)
  then ([Alert "Only administrators can clear packet logs"], false)
  else if negb confirmed
  then ([Confirm "Are you sure you want to clear all packet logs?"], false)
  else ([Confirm "Are you sure you want to clear all packet logs?"; ClearPackets],
        true).

(** [handleClear] after [clearPackets] settled; [c] is the [fetchPackets]
    of the render the handler belongs to. *)
Definition handleClear_end (c : Closure) (ok : bool) : list effect :=
  if ok then fetchPackets c
  else [ConsoleError "Failed to clear packets:"; Alert "Failed to clear packet logs"].

(** A whole run of [handleClear]: it sets no state. *)
Definition handleClear (e : Env) (c : Closure) (confirmed ok : bool) (s : State)
    : State * list effect :=
  let '(out, called) := handleClear_begin e confirmed in
  (s, if called then (out ++ handleClear_end c ok)%list else out).

(** [handleNodeClick]. *)
Definition handleNodeClick (e : Env) (target : string) : list effect :=
  if onNodeClick e && nonempty target && negb (String.eqb target broadcast_id)
  then [OnNodeClick target]
  else [].

(** ** The mounted component

    A mounted component is its state, the environment of its last render,
    the live interval and the service calls that have not settled yet.  An
    input runs one handler or one continuation after an [await]; React then
    renders again and flushes the effects, which is taken as part of the
    same step.  Outstanding calls settle in any order, each through the
    closure that made the call. *)

Record Instance := {
  env : Env;
  state : State;
  filtersId : nat;            (* identity of the object in [filters] *)
  effectDeps : Closure;       (* the [fetchPackets] the polling effect last ran with *)
  timer : option Closure;     (* the live interval and the [fetchPackets] it calls *)
  fetching : list Closure;    (* [getPackets] calls without a result yet *)
  clearing : list Closure     (* [clearPackets] calls without a result yet *)
}.

(** The [fetchPackets] of the current render. *)
Definition closure (i : Instance) : Closure :=
  {| cl_canView := canView (env i);
     cl_filters := filters (state i);
     cl_filtersId := filtersId i;
     cl_autoScroll := autoScroll (state i) |}.

(** Whether two renders hold the same [fetchPackets]. *)
Definition same_closure (a b : Closure) : bool :=
  Bool.eqb (cl_canView a) (cl_canView b)
  && Nat.eqb (cl_filtersId a) (cl_filtersId b)
  && Bool.eqb (cl_autoScroll a) (cl_autoScroll b).

(** [tableRef.current] is set while the panel is what was rendered. *)
Definition tableRef (i : Instance) : bool := canView (env i).

Definition issued (c : Closure) : list Closure :=
  if cl_canView c then [c] else [].

(** The polling effect under the closure [c]: the cleanup of its previous
    run, then its body. *)
Definition pollingEffect (c : Closure) (i : Instance) : Instance * list effect :=
  let cleanup := match timer i with Some _ => [ClearInterval] | None => [] end in
  if negb (cl_canView c)
  then ({| env := env i; state := state i; filtersId := filtersId i;
           effectDeps := c; timer := None;
           fetching := fetching i; clearing := clearing i |},
        cleanup)
  else ({| env := env i; state := state i; filtersId := filtersId i;
           effectDeps := c; timer := Some c;
           fetching := (fetching i ++ issued c)%list; clearing := clearing i |},
        (cleanup ++ fetchPackets c ++ [SetInterval 5000])%list).

(** The component right after its first render and effects. *)
Definition mount (e : Env) : Instance * list effect :=
  let i := {| env := e; state := initial; filtersId := 0%nat;
              effectDeps := {| cl_canView := canView e; cl_filters := no_filters;
                               cl_filtersId := 0%nat; cl_autoScroll := true |};
              timer := None; fetching := []; clearing := [] |} in
  pollingEffect (closure i) i.

(** What happens to a mounted component.  The two selects offer fixed
    options, so their change events carry the parsed value of the chosen
    option: [None] for the empty value, else the number or the boolean. *)
Inductive input :=
| Rerender (e : Env)            (* the contexts or the props changed *)
| Tick                          (* the interval fires *)
| FetchSettled (n : nat) (result : option Response)
                                (* the n-th outstanding [getPackets] resolves or rejects *)
| ClearSettled (n : nat) (ok : bool)
                                (* the n-th outstanding [clearPackets] resolves or rejects *)
| ClickAutoScroll
| ClickFilters
| ClickClear (confirmed : bool)
| ClickClose
| ChangePortnum (selected : option Z)
| ChangeEncrypted (selected : option bool)
| ChangeHideOwn (checked : bool)
| ClickClearFilters
| ClickRow (packet : PacketLog)
| ClickNode (target : string)
| ClickOverlayClose.

Definition set_state (i : Instance) (s : State) : Instance :=
  {| env := env i; state := s; filtersId := filtersId i;
     effectDeps := effectDeps i; timer := timer i;
     fetching := fetching i; clearing := clearing i |}.

(** [setFilters] with a fresh object. *)
Definition set_filters (i : Instance) (f : PacketFilters) : Instance :=
  let s := state i in
  {| env := env i;
     state := {| rawPackets := rawPackets s; total := total s;
                 maxCount := maxCount s; loading := loading s;
                 autoScroll := autoScroll s; selectedPacket := selectedPacket s;
                 filters := f; showFilters := showFilters s;
                 hideOwnPackets := hideOwnPackets s |};
     filtersId := S (filtersId i);
     effectDeps := effectDeps i; timer := timer i;
     fetching := fetching i; clearing := clearing i |}.

Definition set_pending (i : Instance) (f c : list Closure) : Instance :=
  {| env := env i; state := state i; filtersId := filtersId i;
     effectDeps := effectDeps i; timer := timer i;
     fetching := f; clearing := c |}.

Definition set_autoScroll (s : State) (b : bool) : State :=
  {| rawPackets := rawPackets s; total := total s; maxCount := maxCount s;
     loading := loading s; autoScroll := b; selectedPacket := selectedPacket s;
     filters := filters s; showFilters := showFilters s;
     hideOwnPackets := hideOwnPackets s |}.

Definition set_showFilters (s : State) (b : bool) : State :=
  {| rawPackets := rawPackets s; total := total s; maxCount := maxCount s;
     loading := loading s; autoScroll := autoScroll s;
     selectedPacket := selectedPacket s; filters := filters s; showFilters := b;
     hideOwnPackets := hideOwnPackets s |}.

Definition set_hideOwnPackets (s : State) (b : bool) : State :=
  {| rawPackets := rawPackets s; total := total s; maxCount := maxCount s;
     loading := loading s; autoScroll := autoScroll s;
     selectedPacket := selectedPacket s; filters := filters s;
     showFilters := showFilters s; hideOwnPackets := b |}.

Definition set_selectedPacket (s : State) (sel : option PacketLog) : State :=
  {| rawPackets := rawPackets s; total := total s; maxCount := maxCount s;
     loading := loading s; autoScroll := autoScroll s; selectedPacket := sel;
     filters := filters s; showFilters := showFilters s;
     hideOwnPackets := hideOwnPackets s |}.

Fixpoint drop_nth {A : Type} (n : nat) (l : list A) : list A :=
  match n, l with
  | O, _ :: r => r
  | S n', a :: r => a :: drop_nth n' r
  | _, [] => []
  end.

(** The handler or continuation that an input runs, before React renders
    again. *)
Definition handle (i : Instance) (x : input) : Instance * list effect :=
  match x with
  | Rerender e =>
      ({| env := e; state := state i; filtersId := filtersId i;
          effectDeps := effectDeps i; timer := timer i;
          fetching := fetching i; clearing := clearing i |}, [])
  | Tick =>
      match timer i with
      | Some c => (set_pending i (fetching i ++ issued c) (clearing i), fetchPackets c)
      | None => (i, [])
      end
  | FetchSettled n result =>
      match nth_error (fetching i) n with
      | Some c =>
          let '(s, out) :=
            match result with
            | Some response => fetchResolved c (tableRef i) response (state i)
            | None => fetchRejected (state i)
            end in
          (set_state (set_pending i (drop_nth n (fetching i)) (clearing i)) s, out)
      | None => (i, [])
      end
  | ClearSettled n ok =>
      match nth_error (clearing i) n with
      | Some c =>
          (set_pending i (fetching i ++ (if ok then issued c else []))
                       (drop_nth n (clearing i)),
           handleClear_end c ok)
      | None => (i, [])
      end
  | ClickAutoScroll =>
      (set_state i (set_autoScroll (state i) (negb (autoScroll (state i)))), [])
  | ClickFilters =>
      (set_state i (set_showFilters (state i) (negb (showFilters (state i)))), [])
  | ClickClear confirmed =>
      let '(out, called) := handleClear_begin (env i) confirmed in
      (set_pending i (fetching i)
                   (clearing i ++ (if called then [closure i] else [])), out)
  | ClickClose => (i, [OnClose])
  | ChangePortnum selected =>
      (set_filters i {| f_portnum := selected;
                        f_encrypted := f_encrypted (filters (state i)) |}, [])
  | ChangeEncrypted selected =>
      (set_filters i {| f_portnum := f_portnum (filters (state i));
                        f_encrypted := selected |}, [])
  | ChangeHideOwn checked =>
      (set_state i (set_hideOwnPackets (state i) checked), [])
  | ClickClearFilters => (set_filters i no_filters, [])
  | ClickRow packet =>
      (set_state i (set_selectedPacket (state i) (Some packet)), [])
  | ClickNode target => (i, handleNodeClick (env i) target)
  | ClickOverlayClose =>
      (set_state i (set_selectedPacket (state i) None), [])
  end.

(** The render that follows: the polling effect runs again when its
    dependencies changed. *)
Definition commit (r : Instance * list effect) : Instance * list effect :=
  let '(i, out) := r in
  if same_closure (closure i) (effectDeps i) then (i, out)
  else let '(i', out') := pollingEffect (closure i) i in (i', (out ++ out')%list).

Definition step (i : Instance) (x : input) : Instance * list effect :=
  commit (handle i x).

(** A sequence of inputs and everything it emits. *)
Fixpoint run (i : Instance) (xs : list input) : Instance * list effect :=
  match xs with
  | [] => (i, [])
  | x :: rest =>
      let '(i', out) := step i x in
      let '(i'', out') := run i' rest in
      (i'', (out ++ out')%list)
  end.

Definition is_fetch (f : effect) : bool :=
  match f with GetPackets _ _ _ => true | _ => false end.

(** ** Sample data *)

Definition dq : string := String "034" EmptyString.

(** A packet with the fields the examples vary; the others are absent. *)
Definition sample (key from : Z) (to_id to_name : option string)
    (hops : option Z * option Z) (preview : option string) (enc : bool)
    (meta : option string) : PacketLog :=
  {| id := key; packet_id := None; timestamp := Double 0; from_node := from;
     from_node_id := None; from_node_longName := None; to_node := None;
     to_node_id := to_id; to_node_longName := to_name;
     portnum := Some 1; portnum_name := Some "TEXT_MESSAGE_APP";
     channel := Some 0; snr := None; rssi := None;
     hop_start := fst hops; hop_limit := snd hops;
     payload_size := None; payload_preview := preview; encrypted := enc;
     metadata := meta |}.

Definition plain (key from : Z) : PacketLog :=
  sample key from None None (None, None) (Some "hello") false None.

(** An environment with both permissions or none, an administrator or
    not, and the given own node identifier. *)
Definition sample_env (permitted administrator : bool) (own : option string) : Env :=
  {| hasPermission := fun _ _ => permitted;
     authStatus := Some {| user := Some {| isAdmin := administrator |} |};
     deviceInfo := Some {| localNodeInfo := Some {| nodeId := own |} |};
     onNodeClick := true;
     formatTimestamp := fun _ => "12:00:00.000";
     formatDateTime := fun _ => "2025-01-01 12:00:00";
     toFixed1 := fun _ => "0.0" |}.

(** The state after a first response carrying [raw]. *)
Definition loaded (raw : list PacketLog) : State :=
  {| rawPackets := raw; total := Z.of_nat (List.length raw); maxCount := 1000;
     loading := false; autoScroll := true; selectedPacket := None;
     filters := no_filters; showFilters := false; hideOwnPackets := true |}.

(** ** Teardown *)

(** The cleanup of the polling effect when the component goes away: it is
    registered only by a run that set an interval, and cancels it. *)
Definition unmount (i : Instance) : list effect :=
  match timer i with Some _ => [ClearInterval] | None => [] end.

(** ** Vocabulary of the further statements *)

(** The port codes [getPortnumColor] names. *)
Definition mapped_codes : list Z :=
  [1; 3; 4; 67; 70; 71; 5; 6; 8; 11; 32; 64; 65; 66; 72; 73; 256; 257].

(** The text of a child that is a string or a number, as the browser
    shows it, and of a cell made of such children. *)
Definition leaf_text (n : node) : string :=
  match n with
  | Text s => s
  | Num z => Js.string_of_Z z
  | _ => EmptyString
  end.

Definition cell_text (children : list node) : string :=
  String.concat EmptyString (map leaf_text children).


(** What every render leaves behind, in full: the polling effect ran with
    the [fetchPackets] of the current render, and the interval is live, with
    that closure, exactly when the capability check passes. *)
Definition synced (i : Instance) : Prop :=
  effectDeps i = closure i
  /\ timer i = (if canView (env i) then Some (closure i) else None).

Definition is_set (f : effect) : bool :=
  match f with SetInterval _ => true | _ => false end.

Definition is_clear (f : effect) : bool :=
  match f with ClearInterval => true | _ => false end.

(** How many intervals a sequence of effects starts, and how many it
    cancels. *)
Definition started (out : list effect) : Z :=
  Z.of_nat (List.length (filter is_set out)).

Definition cancelled (out : list effect) : Z :=
  Z.of_nat (List.length (filter is_clear out)).

(** One when an interval is live, zero otherwise. *)
Definition live (i : Instance) : Z :=
  match timer i with Some _ => 1 | None => 0 end.

(** Inputs other than the arrival of a response. *)
Definition not_a_response (x : input) : Prop :=
  match x with FetchSettled _ (Some _) => False | _ => True end.

(** Inputs other than a click on a row or a close of the overlay. *)
Definition not_a_selection (x : input) : Prop :=
  match x with ClickRow _ | ClickOverlayClose => False | _ => True end.

(** The interactions that replace a dependency of [fetchPackets]. *)
Definition changes_fetch (x : input) : bool :=
  match x with
  | ClickAutoScroll | ChangePortnum _ | ChangeEncrypted _ | ClickClearFilters => true
  | _ => false
  end.

(** The interactions that touch only what is displayed. *)
Definition local_only (x : input) : bool :=
  match x with
  | ClickFilters | ChangeHideOwn _ | ClickRow _ | ClickOverlayClose => true
  | _ => false
  end.

(** ** Vocabulary of the statements *)

(** The own-node identifier resolves to [n]: the string is there, starts
    with an exclamation mark, and its tail parses to the number [n]. *)
Definition resolves (e : Env) (n : Js.number) : Prop :=
  exists ident, ownNodeId e = Some ident
                /\ Js.startsWith ident "!" = true
                /\ Js.parseInt16 (Js.substring1 ident) = n
                /\ n <> Js.NaN.

(** What is shown for a packet that is not encrypted. *)
Definition shown_preview (packet : PacketLog) : string :=
  match payload_preview packet with
  | Some text => if nonempty text then text else "[No preview]"
  | None => "[No preview]"
  end.

(** The instance reached from a mount under [e] by the inputs [xs]. *)
Definition after (e : Env) (xs : list input) : Instance :=
  fst (run (fst (mount e)) xs).

(** An input under which the capability check keeps failing. *)
Definition stays_denied (x : input) : Prop :=
  match x with
  | Rerender e => canView e = false
  | _ => True
  end.

(** No [clearPackets] call begun under a render that could view the
    packets is still waiting for its result. *)
Definition no_stale_clear (i : Instance) : Prop :=
  Forall (fun c => cl_canView c = false) (clearing i).

(** What every render leaves behind: the polling effect ran with the
    current [fetchPackets], and an interval is live exactly when that
    closure may view the packets. *)
Definition settled (i : Instance) : Prop :=
  same_closure (closure i) (effectDeps i) = true
  /\ timer i = (if cl_canView (effectDeps i) then Some (effectDeps i) else None).

(** The sustained mode of a denied component. *)
Definition quiet (i : Instance) : Prop :=
  canView (env i) = false /\ timer i = None /\ no_stale_clear i.

(** * Properties *)

(** ** The embedded built-ins on known inputs *)

Example parseInt16_node : Js.parseInt16 "43588558" = Js.Fin 1129874776.
Proof. reflexivity. Qed.

Example parseInt16_junk : Js.parseInt16 "xyz" = Js.NaN.
Proof. reflexivity. Qed.

Example parseInt16_prefix : Js.parseInt16 " -0x1fg" = Js.Fin (-31).
Proof. reflexivity. Qed.

Example parseInt16_tie : Js.parseInt16 "20000000000001" = Js.Fin (2 ^ 53).
Proof. vm_compute. reflexivity. Qed.

Example parseInt16_odd : Js.parseInt16 "20000000000003" = Js.Fin (2 ^ 53 + 4).
Proof. vm_compute. reflexivity. Qed.

Example string_of_Z_neg : Js.string_of_Z (-67) = "-67".
Proof. reflexivity. Qed.

Example string_of_Z_zero : Js.string_of_Z 0 = "0".
Proof. reflexivity. Qed.

Example json_tests :
  map Json.valid
    [ "{}"; "[]"; " { " ++ dq ++ "a" ++ dq ++ " : [1, 2.5e-3, -0, true, false, null, " ++ dq ++ "x\n\u00e9" ++ dq ++ "] } ";
      "0"; "-12.5E+7"; dq ++ "s" ++ dq; "null"; "{" ++ dq ++ "k" ++ dq ++ ":{" ++ dq ++ dq ++ ":[[]]}}" ]
  = [true; true; true; true; true; true; true; true]
  /\ map Json.valid
    [ EmptyString; "{"; "not json"; "[1,]"; "{" ++ dq ++ "a" ++ dq ++ ":1,}"; "01"; "1."; ".5"; "+1"; "{a:1}";
      "'x'"; "[1 2]"; "nul"; "nulll"; "1e"; "-"; dq ++ "\x" ++ dq; dq ++ "\u12g4" ++ dq; "{}{}";
      "[}"; "{" ++ dq ++ "a" ++ dq ++ "}"; "tru e"; "]"; "{" ++ dq ++ "a" ++ dq ++ ":}"; "undefined"; "NaN" ]
  = repeat false 26.
Proof. vm_compute. split; reflexivity. Qed.

(** ** Own-node resolution and the effective row list *)

Lemma truthy_spec (n : Js.number) :
  Js.truthy n = true <-> n <> Js.NaN /\ n <> Js.Fin 0.
Proof.
  destruct n as [| neg | z]; simpl.
  - split; [discriminate | intros [H _]; now elim H].
  - split; [intros _; split; discriminate | reflexivity].
  - rewrite negb_true_iff, Z.eqb_neq. split.
    + intros H. split; [discriminate | intros E; injection E as E; contradiction].
    + intros [_ H] E. apply H. now rewrite E.
Qed.

Lemma strict_eq_Fin (z : Z) (n : Js.number) :
  Js.strict_eq (Js.Fin z) n = true <-> Js.Fin z = n.
Proof.
  destruct n as [| neg | y]; simpl; try (split; discriminate).
  rewrite Z.eqb_eq. split; [now intros -> | now intros [= ->]].
Qed.

Lemma resolves_ownNodeNum (e : Env) (n : Js.number) :
  resolves e n <-> ownNodeNum e = Some n /\ n <> Js.NaN.
Proof.
  unfold resolves, ownNodeNum. split.
  - intros (ident & Hid & Hbang & Hparse & Hnan). rewrite Hid, Hbang.
    destruct ident as [| a r]; [discriminate |]. simpl. now subst n.
  - intros [H Hnan]. destruct (ownNodeId e) as [ident |]; [| discriminate].
    destruct (nonempty ident) eqn:Hne; simpl in H; [| discriminate].
    destruct (Js.startsWith ident "!") eqn:Hbang; simpl in H; [| discriminate].
    injection H as H. exists ident. auto.
Qed.

Lemma packets_filtered (e : Env) (s : State) (n : Js.number) :
  hideOwnPackets s = true -> ownNodeNum e = Some n -> Js.truthy n = true ->
  packets e s = filter (not_from (Some n)) (rawPackets s).
Proof.
  intros Hhide Hown Htruthy. unfold packets.
  now rewrite Hhide, Hown; simpl; rewrite Htruthy.
Qed.

Lemma packets_raw (e : Env) (s : State) :
  hideOwnPackets s = false \/ truthy_num (ownNodeNum e) = false ->
  packets e s = rawPackets s.
Proof.
  unfold packets. intros [-> | ->]; [reflexivity | now rewrite andb_false_r].
Qed.

(** C1, as amended: with the toggle on and an own-node identifier that
    resolves to a number other than zero, the effective row list is the raw
    list without the records whose [from_node] is that number, so it holds
    none of them; with the toggle off, or an identifier that does not
    resolve, or one that resolves to zero, it is the raw list itself, same
    elements in the same order.  The derivation is a function of the state:
    the raw list is not changed. *)
Theorem C1_effective_rows (e : Env) (s : State) :
  (forall n, hideOwnPackets s = true -> resolves e n -> n <> Js.Fin 0 ->
     packets e s = filter (not_from (Some n)) (rawPackets s)
     /\ (forall packet, In packet (packets e s) ->
           In packet (rawPackets s) /\ Js.Fin (from_node packet) <> n))
  /\ (hideOwnPackets s = false \/ (forall n, ~ resolves e n) \/ resolves e (Js.Fin 0) ->
      packets e s = rawPackets s).
Proof.
  split.
  - intros n Hhide Hres Hzero. apply resolves_ownNodeNum in Hres as [Hown Hnan].
    assert (Htruthy : Js.truthy n = true) by now apply truthy_spec.
    rewrite (packets_filtered e s n Hhide Hown Htruthy). split; [reflexivity |].
    intros packet Hin. apply filter_In in Hin as [Hin Hkeep]. split; [exact Hin |].
    unfold not_from in Hkeep. apply negb_true_iff in Hkeep. intros E.
    apply strict_eq_Fin in E. congruence.
  - intros H. apply packets_raw.
    destruct H as [H | [H | H]]; [now left | right | right].
    + destruct (ownNodeNum e) as [n |] eqn:Hown; [| reflexivity]. simpl.
      destruct n as [| neg | z]; [reflexivity | |].
      * exfalso. apply (H (Js.Infinity neg)). apply resolves_ownNodeNum.
        split; [exact Hown | discriminate].
      * exfalso. apply (H (Js.Fin z)). apply resolves_ownNodeNum.
        split; [exact Hown | discriminate].
    + apply resolves_ownNodeNum in H as [-> _]. reflexivity.
Qed.

Lemma C1_effective_rows_witness :
  (hideOwnPackets (loaded [plain 1 1129874776; plain 2 7]) = true
   /\ resolves (sample_env true false (Some "!43588558")) (Js.Fin 1129874776)
   /\ Js.Fin 1129874776 <> Js.Fin 0
   /\ packets (sample_env true false (Some "!43588558"))
              (loaded [plain 1 1129874776; plain 2 7])
      = filter (not_from (Some (Js.Fin 1129874776)))
               (rawPackets (loaded [plain 1 1129874776; plain 2 7])))
  /\ (hideOwnPackets (set_hideOwnPackets (loaded [plain 1 1129874776]) false) = false
      /\ packets (sample_env true false (Some "!43588558"))
                 (set_hideOwnPackets (loaded [plain 1 1129874776]) false)
         = [plain 1 1129874776]).
Proof.
  assert (H1 : hideOwnPackets (loaded [plain 1 1129874776; plain 2 7]) = true)
    by reflexivity.
  assert (H2 : resolves (sample_env true false (Some "!43588558"))
                        (Js.Fin 1129874776)).
  { exists "!43588558". repeat split; try reflexivity. discriminate. }
  assert (H3 : Js.Fin 1129874776 <> Js.Fin 0) by discriminate.
  assert (H4 : hideOwnPackets (set_hideOwnPackets (loaded [plain 1 1129874776]) false)
               = false) by reflexivity.
  split.
  - exact (conj H1 (conj H2 (conj H3
             (proj1 (proj1 (C1_effective_rows _ _) _ H1 H2 H3))))).
  - split; [exact H4 |].
    exact (proj2 (C1_effective_rows (sample_env true false (Some "!43588558")) _)
                 (or_introl H4)).
Defined.

(** C1 as stated fails on an own node whose identifier parses to zero:
    the toggle is on, the identifier resolves to 0, and the effective row
    list still holds a record sent by node 0. *)
Lemma C1_counterexample :
  hideOwnPackets (loaded [plain 1 0; plain 2 7]) = true
  /\ resolves (sample_env true false (Some "!0")) (Js.Fin 0)
  /\ In (plain 1 0)
        (packets (sample_env true false (Some "!0")) (loaded [plain 1 0; plain 2 7]))
  /\ Js.Fin (from_node (plain 1 0)) = Js.Fin 0.
Proof.
  repeat split.
  - exists "!0". repeat split; try reflexivity. discriminate.
  - left. reflexivity.
Qed.

(** ** Encrypted payloads *)

Lemma preview_text_shown (packet : PacketLog) :
  preview_text packet = shown_preview packet.
Proof.
  unfold preview_text, shown_preview, or_str, truthy_str.
  destruct (payload_preview packet) as [text |]; [| reflexivity].
  now destruct (nonempty text).
Qed.

(** C2, as amended: for an encrypted packet the Content cell of the row and
    the Content field of the overlay are the encrypted indicator, whatever
    [payload_preview] holds; for a packet that is not encrypted they show
    the preview text when it is present and not empty, and the placeholder
    [[No preview]] when it is absent or empty. *)
Theorem C2_encrypted_content (packet : PacketLog) :
  (encrypted packet = true ->
     contentCell packet = [encrypted_indicator]
     /\ detailContent packet = [encrypted_indicator])
  /\ (encrypted packet = false ->
      contentCell packet = [el "span" "content-preview" [Text (shown_preview packet)]]
      /\ detailContent packet
         = [el "pre" "payload-content" [Text (shown_preview packet)]]).
Proof.
  unfold contentCell, detailContent. rewrite preview_text_shown.
  split; intros ->; split; reflexivity.
Qed.

Lemma C2_encrypted_content_witness :
  (encrypted (sample 1 2 None None (None, None) (Some "secret") true None) = true
   /\ contentCell (sample 1 2 None None (None, None) (Some "secret") true None)
      = [encrypted_indicator]
   /\ detailContent (sample 1 2 None None (None, None) (Some "secret") true None)
      = [encrypted_indicator])
  /\ (encrypted (plain 1 2) = false
      /\ contentCell (plain 1 2) = [el "span" "content-preview" [Text "hello"]]
      /\ detailContent (plain 1 2) = [el "pre" "payload-content" [Text "hello"]]).
Proof.
  split.
  - split; [reflexivity |].
    exact (proj1 (C2_encrypted_content
                    (sample 1 2 None None (None, None) (Some "secret") true None))
                 eq_refl).
  - split; [reflexivity |].
    exact (proj2 (C2_encrypted_content (plain 1 2)) eq_refl).
Defined.

(** C2 as stated fails on a packet that is not encrypted and whose preview
    is present but empty: the cell shows the placeholder, not the preview. *)
Lemma C2_counterexample :
  encrypted (sample 1 2 None None (None, None) (Some EmptyString) false None) = false
  /\ payload_preview (sample 1 2 None None (None, None) (Some EmptyString) false None)
     = Some EmptyString
  /\ contentCell (sample 1 2 None None (None, None) (Some EmptyString) false None)
     <> [el "span" "content-preview" [Text EmptyString]]
  /\ contentCell (sample 1 2 None None (None, None) (Some EmptyString) false None)
     = [el "span" "content-preview" [Text "[No preview]"]].
Proof. repeat split. discriminate. Qed.

(** ** Hop count *)

(** C6: [calculateHops] yields a count exactly when both [hop_start] and
    [hop_limit] are present, the count is [hop_start - hop_limit], and
    without one of them the Hops cell shows [N/A]. *)
Theorem C6_hop_count (packet : PacketLog) :
  (calculateHops packet <> None
   <-> hop_start packet <> None /\ hop_limit packet <> None)
  /\ (forall start limit,
        hop_start packet = Some start -> hop_limit packet = Some limit ->
        calculateHops packet = Some (start - limit)
        /\ hopsCell packet = [Num (start - limit)])
  /\ (hop_start packet = None \/ hop_limit packet = None ->
      calculateHops packet = None /\ hopsCell packet = [Text "N/A"]).
Proof.
  unfold hopsCell, calculateHops.
  destruct (hop_start packet) as [a |], (hop_limit packet) as [b |]; simpl.
  - split; [split; [intros _; split; discriminate | discriminate] |].
    split; [intros ? ? [= <-] [= <-]; now split | intros [H | H]; discriminate].
  - split; [split; [congruence | intros [_ H]; congruence] |].
    split; [discriminate | now split].
  - split; [split; [congruence | intros [H _]; congruence] |].
    split; [discriminate | now split].
  - split; [split; [congruence | intros [H _]; congruence] |].
    split; [discriminate | now split].
Qed.

Lemma C6_hop_count_witness :
  (hop_start (sample 1 2 None None (Some 7, Some 4) None false None) = Some 7
   /\ hop_limit (sample 1 2 None None (Some 7, Some 4) None false None) = Some 4
   /\ calculateHops (sample 1 2 None None (Some 7, Some 4) None false None) = Some 3
   /\ hopsCell (sample 1 2 None None (Some 7, Some 4) None false None) = [Num 3])
  /\ (hop_limit (sample 1 2 None None (Some 7, None) None false None) = None
      /\ calculateHops (sample 1 2 None None (Some 7, None) None false None) = None
      /\ hopsCell (sample 1 2 None None (Some 7, None) None false None)
         = [Text "N/A"]).
Proof.
  split.
  - split; [reflexivity |]. split; [reflexivity |].
    exact (proj1 (proj2 (C6_hop_count
                           (sample 1 2 None None (Some 7, Some 4) None false None)))
                 7 4 eq_refl eq_refl).
  - split; [reflexivity |].
    exact (proj2 (proj2 (C6_hop_count
                           (sample 1 2 None None (Some 7, None) None false None)))
                 (or_intror eq_refl)).
Defined.

(** ** Broadcast destination *)

(** C8: a packet whose [to_node_id] is the broadcast sentinel shows
    [Broadcast] in the To cell of its row and in the To field of the
    overlay, whatever its long name and whether or not node links are on. *)
Theorem C8_broadcast (e : Env) (packet : PacketLog) :
  to_node_id packet = Some "!ffffffff" ->
  toCell e packet = [Text "Broadcast"] /\ detailTo packet = [Text "Broadcast"].
Proof.
  intros H. unfold toCell, detailTo. rewrite H. split; reflexivity.
Qed.

Lemma C8_broadcast_witness :
  to_node_id (sample 1 2 (Some "!ffffffff") (Some "Base station") (None, None)
                     None false None) = Some "!ffffffff"
  /\ toCell (sample_env true false None)
            (sample 1 2 (Some "!ffffffff") (Some "Base station") (None, None)
                    None false None) = [Text "Broadcast"]
  /\ detailTo (sample 1 2 (Some "!ffffffff") (Some "Base station") (None, None)
                      None false None) = [Text "Broadcast"].
Proof.
  split; [reflexivity |].
  exact (C8_broadcast (sample_env true false None)
           (sample 1 2 (Some "!ffffffff") (Some "Base station") (None, None)
                   None false None) eq_refl).
Defined.

(** ** Dynamic width of the Type column *)

Lemma label_length_nonneg (packet : PacketLog) : 0 <= label_length packet.
Proof. unfold label_length. lia. Qed.

Lemma longest_from (ps : list PacketLog) (start : Z) :
  0 <= start ->
  fold_left (fun max packet => Z.max max (label_length packet)) ps start
  = Z.max start (longestLabel ps).
Proof.
  unfold longestLabel. revert start.
  induction ps as [| p ps IH]; intros start Hstart; simpl.
  - lia.
  - pose proof (label_length_nonneg p) as Hp.
    rewrite (IH (Z.max start (label_length p))) by lia.
    rewrite (IH (Z.max 0 (label_length p))) by lia. lia.
Qed.

Lemma longestLabel_cons (p : PacketLog) (ps : list PacketLog) :
  longestLabel (p :: ps) = Z.max (label_length p) (longestLabel ps).
Proof.
  pose proof (label_length_nonneg p) as Hp.
  unfold longestLabel at 1. simpl. rewrite longest_from by lia. lia.
Qed.

Lemma longestLabel_nonneg (ps : list PacketLog) : 0 <= longestLabel ps.
Proof.
  induction ps as [| p ps IH]; [unfold longestLabel; simpl; lia |].
  rewrite longestLabel_cons. lia.
Qed.

Lemma longestLabel_upper (ps : list PacketLog) (packet : PacketLog) :
  In packet ps -> label_length packet <= longestLabel ps.
Proof.
  induction ps as [| p ps IH]; intros Hin; [contradiction |].
  rewrite longestLabel_cons. destruct Hin as [-> | Hin]; [lia |].
  specialize (IH Hin). lia.
Qed.

Lemma longestLabel_attained (ps : list PacketLog) :
  ps <> [] -> exists packet, In packet ps /\ label_length packet = longestLabel ps.
Proof.
  induction ps as [| p ps IH]; intros Hne; [contradiction |].
  rewrite longestLabel_cons. destruct ps as [| q ps].
  - exists p. split; [now left |]. unfold longestLabel. simpl.
    pose proof (label_length_nonneg p). lia.
  - destruct IH as (w & Hin & Hw); [discriminate |].
    destruct (Z.max_spec (label_length p) (longestLabel (q :: ps))) as [[_ ->] | [_ ->]].
    + exists w. split; [now right | exact Hw].
    + exists p. split; [now left | reflexivity].
Qed.

(** C7: the width of the Type column is [max (longest + 5) 12] followed by
    [ch], where [longest] is the greatest length among the labels of the
    rows (zero without rows) and the label of a row is its type name when
    present, else its port code as text; the width is never below 12 and
    does not decrease when the longest label grows. *)
Theorem C7_type_column_width (ps qs : list PacketLog) :
  typeColumnWidth ps
  = (Js.string_of_Z (Z.max (longestLabel ps + 5) 12) ++ "ch")%string
  /\ (forall packet, In packet ps ->
        Z.of_nat (String.length (typeLabel packet)) <= longestLabel ps)
  /\ (ps = [] -> longestLabel ps = 0)
  /\ (ps <> [] ->
      exists packet, In packet ps
                     /\ Z.of_nat (String.length (typeLabel packet)) = longestLabel ps)
  /\ (forall packet name, portnum_name packet = Some name -> typeLabel packet = name)
  /\ (forall packet code,
        portnum_name packet = None -> portnum packet = Some code ->
        typeLabel packet = Js.string_of_Z code)
  /\ 12 <= totalChars ps
  /\ (longestLabel ps <= longestLabel qs -> totalChars ps <= totalChars qs).
Proof.
  split; [reflexivity |].
  split; [exact (longestLabel_upper ps) |].
  split; [now intros -> |].
  split; [exact (longestLabel_attained ps) |].
  split; [intros packet name H; unfold typeLabel; now rewrite H |].
  split; [intros packet code H1 H2; unfold typeLabel; now rewrite H1, H2 |].
  unfold totalChars, paddingChars, defaultWidth. split; lia.
Qed.

Example typeColumnWidth_short :
  typeColumnWidth [sample 1 2 None None (None, None) None false None] = "21ch".
Proof. reflexivity. Qed.

Example typeColumnWidth_empty : typeColumnWidth [] = "12ch".
Proof. reflexivity. Qed.

Lemma C7_type_column_width_witness :
  (In (plain 1 2) [plain 1 2]
   /\ Z.of_nat (String.length (typeLabel (plain 1 2))) <= longestLabel [plain 1 2])
  /\ (longestLabel [] <= longestLabel [plain 1 2]
      /\ totalChars [] <= totalChars [plain 1 2])
  /\ (portnum_name (plain 1 2) = Some "TEXT_MESSAGE_APP"
      /\ typeLabel (plain 1 2) = "TEXT_MESSAGE_APP")
  /\ ([plain 1 2] <> []
      /\ exists packet,
           In packet [plain 1 2]
           /\ Z.of_nat (String.length (typeLabel packet)) = longestLabel [plain 1 2]).
Proof.
  assert (H1 : In (plain 1 2) [plain 1 2]) by (left; reflexivity).
  assert (H2 : longestLabel [] <= longestLabel [plain 1 2])
    by (vm_compute; discriminate).
  assert (H3 : portnum_name (plain 1 2) = Some "TEXT_MESSAGE_APP") by reflexivity.
  assert (H4 : [plain 1 2] <> []) by discriminate.
  split.
  - exact (conj H1 (proj1 (proj2 (C7_type_column_width [plain 1 2] [])) _ H1)).
  - split.
    + exact (conj H2 (proj2 (proj2 (proj2 (proj2 (proj2 (proj2 (proj2
               (C7_type_column_width [] [plain 1 2]))))))) H2)).
    + split.
      * exact (conj H3 (proj1 (proj2 (proj2 (proj2 (proj2
                 (C7_type_column_width [plain 1 2] []))))) _ _ H3)).
      * exact (conj H4 (proj1 (proj2 (proj2 (proj2
                 (C7_type_column_width [plain 1 2] [])))) H4)).
Defined.

(** ** Metadata that is not JSON *)

(** C9: with a selected packet whose metadata is a non-empty string that
    [JSON.parse] rejects, the overlay throws, and so does the render of the
    component that contains it. *)
Theorem C9_invalid_metadata_throws (e : Env) (s : State) (sel : PacketLog)
    (m : string) :
  canView e = true -> selectedPacket s = Some sel ->
  metadata sel = Some m -> m <> EmptyString -> Json.valid m = false ->
  overlay e sel = Throws "SyntaxError" /\ render e s = Throws "SyntaxError".
Proof.
  intros Hview Hsel Hmeta Hne Hbad.
  assert (Ho : overlay e sel = Throws "SyntaxError").
  { unfold overlay, detailMetadata. rewrite Hmeta, Hbad.
    destruct m; [now elim Hne | reflexivity]. }
  split; [exact Ho |]. unfold render. now rewrite Hview, Hsel, Ho.
Qed.

Lemma C9_invalid_metadata_throws_witness :
  canView (sample_env true false None) = true
  /\ Json.valid "not json" = false
  /\ render (sample_env true false None)
            (set_selectedPacket (loaded [])
               (Some (sample 1 2 None None (None, None) None false (Some "not json"))))
     = Throws "SyntaxError".
Proof.
  split; [reflexivity |]. split; [reflexivity |].
  refine (proj2 (C9_invalid_metadata_throws (sample_env true false None)
                   (set_selectedPacket (loaded [])
                      (Some (sample 1 2 None None (None, None) None false
                                    (Some "not json"))))
                   (sample 1 2 None None (None, None) None false (Some "not json"))
                   "not json" eq_refl eq_refl eq_refl _ eq_refl)).
  discriminate.
Defined.

Example valid_metadata_renders :
  exists nodes,
    overlay (sample_env true false None)
            (sample 1 2 None None (None, None) None false (Some "{}"))
    = Rendered nodes.
Proof. eexists. reflexivity. Qed.

(** ** The outcome of a fetch *)

(** C5: after a failed fetch the loading flag is off, the raw list and the
    two counters are the ones shown before, and the only thing emitted is
    the log entry: no dialog, no call to the host.  After a successful
    fetch the raw list and the two counters are those of the response and
    the loading flag is off.  The mounted component applies exactly these
    continuations when an outstanding request settles. *)
Theorem C5_fetch_outcome (c : Closure) (mounted : bool) (response : Response)
    (s : State) :
  loading (fst (fetchRejected s)) = false
  /\ rawPackets (fst (fetchRejected s)) = rawPackets s
  /\ total (fst (fetchRejected s)) = total s
  /\ maxCount (fst (fetchRejected s)) = maxCount s
  /\ snd (fetchRejected s) = [ConsoleError "Failed to fetch packets:"]
  /\ rawPackets (fst (fetchResolved c mounted response s)) = r_packets response
  /\ total (fst (fetchResolved c mounted response s)) = r_total response
  /\ maxCount (fst (fetchResolved c mounted response s)) = r_maxCount response
  /\ loading (fst (fetchResolved c mounted response s)) = false
  /\ (forall i n,
        state i = s -> nth_error (fetching i) n = Some c ->
        state (fst (handle i (FetchSettled n None))) = fst (fetchRejected s)
        /\ snd (handle i (FetchSettled n None)) = snd (fetchRejected s)
        /\ state (fst (handle i (FetchSettled n (Some response))))
           = fst (fetchResolved c (tableRef i) response s)).
Proof.
  repeat (split; [reflexivity |]).
  intros i n <- Hn. simpl. rewrite Hn. repeat split.
Qed.

Lemma C5_fetch_outcome_witness :
  state (fst (mount (sample_env true false None))) = initial
  /\ nth_error (fetching (fst (mount (sample_env true false None)))) 0
     = Some (closure (fst (mount (sample_env true false None))))
  /\ state (fst (handle (fst (mount (sample_env true false None)))
                        (FetchSettled 0 None)))
     = fst (fetchRejected initial).
Proof.
  split; [reflexivity |]. split; [reflexivity |].
  exact (proj1 (proj2 (proj2 (proj2 (proj2 (proj2 (proj2 (proj2 (proj2 (proj2
           (C5_fetch_outcome (closure (fst (mount (sample_env true false None))))
              true {| r_packets := []; r_total := 0; r_maxCount := 1000 |}
              initial)))))))))
           (fst (mount (sample_env true false None))) 0%nat eq_refl eq_refl)).
Defined.

Example first_response_empty :
  tableArea (sample_env true false None)
    (fst (fetchResolved (closure (fst (mount (sample_env true false None)))) true
            {| r_packets := []; r_total := 0; r_maxCount := 1000 |} initial))
  = Elem "div" [("class", "packet-table-container"); ("ref", "tableRef")]
         [el "div" "no-packets" [Text "No packets logged yet"]].
Proof. reflexivity. Qed.

(** C10: a successful fetch leaves the auto-scroll toggle, the selected
    packet, the filter criteria, the visibility of the filter panel and the
    hide-own-packets toggle as they were.  The overlay is drawn from the
    selected packet alone, so it stays what it was at the click, whatever
    the response holds. *)
Theorem C10_fetch_frame (c : Closure) (mounted : bool) (response : Response)
    (s : State) :
  autoScroll (fst (fetchResolved c mounted response s)) = autoScroll s
  /\ selectedPacket (fst (fetchResolved c mounted response s)) = selectedPacket s
  /\ filters (fst (fetchResolved c mounted response s)) = filters s
  /\ showFilters (fst (fetchResolved c mounted response s)) = showFilters s
  /\ hideOwnPackets (fst (fetchResolved c mounted response s)) = hideOwnPackets s
  /\ (forall e sel nodes,
        canView e = true -> selectedPacket s = Some sel ->
        overlay e sel = Rendered nodes ->
        render e s = Rendered (panel e s :: nodes)
        /\ render e (fst (fetchResolved c mounted response s))
           = Rendered (panel e (fst (fetchResolved c mounted response s)) :: nodes)).
Proof.
  repeat (split; [reflexivity |]).
  intros e sel nodes Hview Hsel Ho. unfold render. simpl.
  now rewrite Hview, Hsel, Ho.
Qed.

Lemma C10_fetch_frame_witness :
  canView (sample_env true false None) = true
  /\ selectedPacket (set_selectedPacket (loaded [plain 9 2]) (Some (plain 9 2)))
     = Some (plain 9 2)
  /\ (exists nodes,
        overlay (sample_env true false None) (plain 9 2) = Rendered nodes
        /\ render (sample_env true false None)
             (fst (fetchResolved (closure (fst (mount (sample_env true false None))))
                     true
                     {| r_packets := [plain 10 3]; r_total := 1; r_maxCount := 1000 |}
                     (set_selectedPacket (loaded [plain 9 2]) (Some (plain 9 2)))))
           = Rendered
               (panel (sample_env true false None)
                  (fst (fetchResolved
                          (closure (fst (mount (sample_env true false None)))) true
                          {| r_packets := [plain 10 3]; r_total := 1;
                             r_maxCount := 1000 |}
                          (set_selectedPacket (loaded [plain 9 2])
                                              (Some (plain 9 2)))))
                :: nodes)).
Proof.
  split; [reflexivity |]. split; [reflexivity |].
  eexists. split; [reflexivity |].
  exact (proj2
           (proj2 (proj2 (proj2 (proj2 (proj2
              (C10_fetch_frame (closure (fst (mount (sample_env true false None))))
                 true
                 {| r_packets := [plain 10 3]; r_total := 1; r_maxCount := 1000 |}
                 (set_selectedPacket (loaded [plain 9 2]) (Some (plain 9 2))))))))
              (sample_env true false None) (plain 9 2) _ eq_refl eq_refl eq_refl)).
Defined.

Example overlay_survives_a_fetch :
  (fun i => (selectedPacket (state i), map id (rawPackets (state i))))
    (fst (run (fst (mount (sample_env true false None)))
              [ FetchSettled 0 (Some {| r_packets := [plain 9 2]; r_total := 1;
                                        r_maxCount := 1000 |});
                ClickRow (plain 9 2); Tick;
                FetchSettled 0 (Some {| r_packets := [plain 10 3]; r_total := 1;
                                        r_maxCount := 1000 |}) ]))
  = (Some (plain 9 2), [10]).
Proof. reflexivity. Qed.

(** ** The clear action *)

(** C4: without the administrator flag the handler only alerts and calls
    no clear; with it the confirmation dialog comes first and a refusal
    stops there; after a confirmation [clearPackets] is called and, when it
    succeeds, [fetchPackets] runs at once, which under the permissions that
    show the button is the request for the first hundred packets; when it
    fails the failure is logged and alerted and no fetch is made.  No
    branch changes the state. *)
Theorem C4_clear_action (e : Env) (c : Closure) (confirmed ok : bool) (s : State) :
  fst (handleClear e c confirmed ok s) = s
  /\ (admin e = false ->
      snd (handleClear e c confirmed ok s)
      = [Alert "Only administrators can clear packet logs"])
  /\ (admin e = true -> confirmed = false ->
      snd (handleClear e c confirmed ok s)
      = [Confirm "Are you sure you want to clear all packet logs?"])
  /\ (admin e = true -> confirmed = true -> ok = true ->
      snd (handleClear e c confirmed ok s)
      = ([Confirm "Are you sure you want to clear all packet logs?"; ClearPackets]
         ++ fetchPackets c)%list
      /\ (cl_canView c = true ->
          snd (handleClear e c confirmed ok s)
          = [Confirm "Are you sure you want to clear all packet logs?"; ClearPackets;
             GetPackets 0 100 (cl_filters c)]))
  /\ (admin e = true -> confirmed = true -> ok = false ->
      snd (handleClear e c confirmed ok s)
      = [Confirm "Are you sure you want to clear all packet logs?"; ClearPackets;
         ConsoleError "Failed to clear packets:";
         Alert "Failed to clear packet logs"]).
Proof.
  unfold handleClear, handleClear_begin, handleClear_end, fetchPackets.
  split; [destruct (admin e), confirmed; reflexivity |].
  split; [now intros -> |].
  split; [now intros -> -> |].
  split.
  - intros -> -> ->. split; [reflexivity | now intros ->].
  - now intros -> -> ->.
Qed.

Lemma C4_clear_action_witness :
  (admin (sample_env true false None) = false
   /\ snd (handleClear (sample_env true false None)
             (closure (fst (mount (sample_env true false None)))) true true initial)
      = [Alert "Only administrators can clear packet logs"])
  /\ (admin (sample_env true true None) = true
      /\ snd (handleClear (sample_env true true None)
                (closure (fst (mount (sample_env true true None)))) false true initial)
         = [Confirm "Are you sure you want to clear all packet logs?"])
  /\ (cl_canView (closure (fst (mount (sample_env true true None)))) = true
      /\ snd (handleClear (sample_env true true None)
                (closure (fst (mount (sample_env true true None)))) true true initial)
         = [Confirm "Are you sure you want to clear all packet logs?"; ClearPackets;
            GetPackets 0 100
              (cl_filters (closure (fst (mount (sample_env true true None)))))])
  /\ snd (handleClear (sample_env true true None)
            (closure (fst (mount (sample_env true true None)))) true false initial)
     = [Confirm "Are you sure you want to clear all packet logs?"; ClearPackets;
        ConsoleError "Failed to clear packets:";
        Alert "Failed to clear packet logs"].
Proof.
  split.
  - split; [reflexivity |].
    exact (proj1 (proj2 (C4_clear_action (sample_env true false None)
                           (closure (fst (mount (sample_env true false None))))
                           true true initial)) eq_refl).
  - split.
    + split; [reflexivity |].
      exact (proj1 (proj2 (proj2
               (C4_clear_action (sample_env true true None)
                  (closure (fst (mount (sample_env true true None))))
                  false true initial))) eq_refl eq_refl).
    + split.
      * split; [reflexivity |].
        exact (proj2 (proj1 (proj2 (proj2 (proj2
                 (C4_clear_action (sample_env true true None)
                    (closure (fst (mount (sample_env true true None))))
                    true true initial)))) eq_refl eq_refl eq_refl) eq_refl).
      * exact (proj2 (proj2 (proj2 (proj2
                 (C4_clear_action (sample_env true true None)
                    (closure (fst (mount (sample_env true true None))))
                    true false initial)))) eq_refl eq_refl eq_refl).
Defined.

Example clear_in_the_mounted_component :
  snd (run (fst (mount (sample_env true true None)))
           [ClickClear true; ClearSettled 0 true])
  = [Confirm "Are you sure you want to clear all packet logs?"; ClearPackets;
     GetPackets 0 100 no_filters].
Proof. reflexivity. Qed.

(** ** The permission gate *)

Lemma same_closure_refl (c : Closure) : same_closure c c = true.
Proof.
  unfold same_closure. now rewrite !Bool.eqb_reflx, Nat.eqb_refl.
Qed.

Lemma handle_keeps_effect (i : Instance) (x : input) :
  timer (fst (handle i x)) = timer i
  /\ effectDeps (fst (handle i x)) = effectDeps i.
Proof.
  destruct x; simpl; try (split; reflexivity).
  - destruct (timer i) eqn:Ht; simpl; rewrite ?Ht; split; reflexivity.
  - destruct (nth_error (fetching i) n) as [c |]; [| split; reflexivity].
    destruct result as [response |]; split; reflexivity.
  - destruct (nth_error (clearing i) n); split; reflexivity.
  - destruct (handleClear_begin (env i) confirmed). split; reflexivity.
Qed.

Lemma pollingEffect_settled (i : Instance) :
  settled (fst (pollingEffect (closure i) i)).
Proof.
  unfold settled, pollingEffect.
  assert (Hc : cl_canView (closure i) = canView (env i)) by reflexivity.
  destruct (cl_canView (closure i)) eqn:Hview; cbn [negb fst];
    (split; [apply same_closure_refl |]); cbn [effectDeps timer];
    now rewrite Hview.
Qed.

Lemma commit_settled (i : Instance) (out : list effect) :
  settled i \/ same_closure (closure i) (effectDeps i) = false ->
  settled (fst (commit (i, out))).
Proof.
  intros H. unfold commit.
  destruct (same_closure (closure i) (effectDeps i)) eqn:Hsame.
  - destruct H as [H | H]; [exact H | discriminate].
  - pose proof (pollingEffect_settled i) as Hs.
    destruct (pollingEffect (closure i) i). exact Hs.
Qed.

Lemma step_settled (i : Instance) (x : input) :
  settled i -> settled (fst (step i x)).
Proof.
  intros [_ Htimer]. unfold step.
  destruct (handle_keeps_effect i x) as [Ht Hd].
  destruct (handle i x) as [i' out]. simpl in Ht, Hd. apply commit_settled.
  destruct (same_closure (closure i') (effectDeps i')) eqn:Hsame; [left | now right].
  split; [exact Hsame | now rewrite Ht, Hd].
Qed.

Lemma mount_settled (e : Env) : settled (fst (mount e)).
Proof. unfold mount. apply pollingEffect_settled. Qed.

Lemma run_settled (xs : list input) (i : Instance) :
  settled i -> settled (fst (run i xs)).
Proof.
  revert i. induction xs as [| x xs IH]; intros i Hi; [exact Hi |].
  simpl. pose proof (step_settled i x Hi) as Hs.
  destruct (step i x) as [i' out]. specialize (IH i' Hs).
  destruct (run i' xs). exact IH.
Qed.

Lemma settled_denied_no_timer (i : Instance) :
  settled i -> canView (env i) = false -> timer i = None.
Proof.
  intros [Hsame Htimer] Hview. unfold same_closure in Hsame.
  apply andb_true_iff in Hsame as [Hsame _].
  apply andb_true_iff in Hsame as [Hsame _].
  apply Bool.eqb_prop in Hsame. simpl in Hsame.
  now rewrite Htimer, <- Hsame, Hview.
Qed.

Lemma drop_nth_Forall {A : Type} (P : A -> Prop) (n : nat) (l : list A) :
  Forall P l -> Forall P (drop_nth n l).
Proof.
  intros H. revert n. induction H as [| a l Ha Hl IH]; intros [| n]; simpl; auto.
Qed.

Lemma fetchPackets_gate (c : Closure) :
  cl_canView c = false -> fetchPackets c = [].
Proof. unfold fetchPackets. now intros ->. Qed.

Lemma denied_render (e : Env) (s : State) :
  canView e = false -> render e s = Rendered deniedView.
Proof. unfold render. now intros ->. Qed.

Lemma handle_quiet (i : Instance) (x : input) :
  quiet i -> stays_denied x ->
  quiet (fst (handle i x)) /\ existsb is_fetch (snd (handle i x)) = false.
Proof.
  intros (Hview & Htimer & Hclear) Hx. unfold quiet, no_stale_clear in *.
  destruct x; simpl.
  - simpl in Hx. auto.
  - rewrite Htimer. simpl. auto.
  - destruct (nth_error (fetching i) n) as [c |]; [| simpl; auto].
    destruct result as [response |]; simpl; [| auto].
    match goal with |- context [if ?b then _ else _] => destruct b end; simpl; auto.
  - destruct (nth_error (clearing i) n) as [c |] eqn:Hn; [| simpl; auto].
    assert (Hc : cl_canView c = false).
    { apply nth_error_In in Hn. rewrite Forall_forall in Hclear. now apply Hclear. }
    simpl. repeat split; auto using drop_nth_Forall.
    unfold handleClear_end. rewrite (fetchPackets_gate c Hc). now destruct ok.
  - auto.
  - auto.
  - unfold handleClear_begin.
    destruct (admin (env i)); simpl; [| rewrite app_nil_r; auto].
    destruct confirmed; simpl; [| rewrite app_nil_r; auto].
    repeat split; auto. apply Forall_app. split; [exact Hclear |].
    constructor; [exact Hview | constructor].
  - auto.
  - auto.
  - auto.
  - auto.
  - auto.
  - auto.
  - repeat split; auto. unfold handleNodeClick.
    now destruct (onNodeClick (env i) && nonempty target
                  && negb (String.eqb target broadcast_id)).
  - auto.
Qed.

Lemma commit_quiet (i : Instance) (out : list effect) :
  quiet i -> existsb is_fetch out = false ->
  quiet (fst (commit (i, out))) /\ existsb is_fetch (snd (commit (i, out))) = false.
Proof.
  intros (Hview & Htimer & Hclear) Hout. unfold commit.
  destruct (same_closure (closure i) (effectDeps i)); [now repeat split |].
  unfold pollingEffect. rewrite Htimer.
  assert (Hc : cl_canView (closure i) = false) by exact Hview.
  rewrite Hc. simpl. rewrite app_nil_r. now repeat split.
Qed.

Lemma step_quiet (i : Instance) (x : input) :
  quiet i -> stays_denied x ->
  quiet (fst (step i x)) /\ existsb is_fetch (snd (step i x)) = false.
Proof.
  intros Hi Hx. unfold step.
  destruct (handle_quiet i x Hi Hx) as [Hq Hout].
  destruct (handle i x) as [i' out]. now apply commit_quiet.
Qed.

Lemma run_quiet (xs : list input) (i : Instance) :
  quiet i -> Forall stays_denied xs ->
  quiet (fst (run i xs)) /\ existsb is_fetch (snd (run i xs)) = false.
Proof.
  revert i. induction xs as [| x xs IH]; intros i Hi Hxs; [now split |].
  inversion Hxs as [| ? ? Hx Hrest]; subst. simpl.
  destruct (step_quiet i x Hi Hx) as [Hq Hout].
  destruct (step i x) as [i' out]. simpl in Hq, Hout.
  destruct (IH i' Hq Hrest) as [Hq' Hout'].
  destruct (run i' xs) as [i'' out']. simpl in *.
  split; [exact Hq' |]. rewrite existsb_app, Hout, Hout'. reflexivity.
Qed.

Lemma stays_denied_firstn (k : nat) (xs : list input) :
  Forall stays_denied xs -> Forall stays_denied (firstn k xs).
Proof.
  intros H. revert k. induction H as [| x xs Hx Hxs IH]; intros [| k]; simpl; auto.
Qed.

(** C3, as amended: the component that fails the capability check (it
    needs both permissions to pass) renders the permission-denied
    explanation and nothing else; its [fetchPackets] issues no request and
    a mount in that mode starts no fetch and no timer.  From any point of
    its life where the check fails and no clear begun while it passed is
    still awaiting its result, no input issues a fetch request, and every
    render is the explanation, for as long as the check keeps failing. *)
Theorem C3_permission_gate (e0 : Env) (history future : list input) (k : nat) :
  (canView e0 = true
   <-> hasPermission e0 "channels" "read" = true
       /\ hasPermission e0 "messages" "read" = true)
  /\ (forall s, canView e0 = false -> render e0 s = Rendered deniedView)
  /\ (forall c, cl_canView c = false -> fetchPackets c = [])
  /\ (canView e0 = false ->
      mount e0 = (fst (mount e0), []) /\ timer (fst (mount e0)) = None)
  /\ (canView (env (after e0 history)) = false ->
      no_stale_clear (after e0 history) ->
      Forall stays_denied future ->
      render (env (fst (run (after e0 history) (firstn k future))))
             (state (fst (run (after e0 history) (firstn k future))))
      = Rendered deniedView
      /\ existsb is_fetch (snd (run (after e0 history) (firstn k future))) = false).
Proof.
  split; [unfold canView; apply andb_true_iff |].
  split; [intros s; apply denied_render |].
  split; [exact fetchPackets_gate |].
  split.
  - intros Hview. unfold mount, pollingEffect. simpl. now rewrite Hview.
  - intros Hview Hclear Hfuture.
    assert (Hq : quiet (after e0 history)).
    { repeat split; [exact Hview | | exact Hclear].
      apply settled_denied_no_timer; [| exact Hview].
      unfold after. apply run_settled, mount_settled. }
    destruct (run_quiet (firstn k future) _ Hq (stays_denied_firstn k _ Hfuture))
      as [(Hview' & _) Hout].
    split; [now apply denied_render | exact Hout].
Qed.

Lemma C3_permission_gate_witness :
  (canView (sample_env false true None) = false
   /\ render (sample_env false true None) (loaded [plain 1 2]) = Rendered deniedView
   /\ mount (sample_env false true None)
      = (fst (mount (sample_env false true None)), [])
   /\ timer (fst (mount (sample_env false true None))) = None)
  /\ (canView (env (after (sample_env true false None)
                          [Tick; Rerender (sample_env false false None)])) = false
      /\ no_stale_clear (after (sample_env true false None)
                               [Tick; Rerender (sample_env false false None)])
      /\ Forall stays_denied [Tick; ClickClear true; ClearSettled 0 true;
                              FetchSettled 0 None; ClickClearFilters]
      /\ render
           (env (fst (run (after (sample_env true false None)
                                 [Tick; Rerender (sample_env false false None)])
                          (firstn 5 [Tick; ClickClear true; ClearSettled 0 true;
                                     FetchSettled 0 None; ClickClearFilters]))))
           (state (fst (run (after (sample_env true false None)
                                   [Tick; Rerender (sample_env false false None)])
                            (firstn 5 [Tick; ClickClear true; ClearSettled 0 true;
                                       FetchSettled 0 None; ClickClearFilters]))))
         = Rendered deniedView
      /\ existsb is_fetch
           (snd (run (after (sample_env true false None)
                            [Tick; Rerender (sample_env false false None)])
                     (firstn 5 [Tick; ClickClear true; ClearSettled 0 true;
                                FetchSettled 0 None; ClickClearFilters])))
         = false).
Proof.
  assert (H0 : canView (sample_env false true None) = false) by reflexivity.
  assert (H1 : canView (env (after (sample_env true false None)
                                   [Tick; Rerender (sample_env false false None)]))
               = false) by reflexivity.
  assert (H2 : no_stale_clear (after (sample_env true false None)
                                     [Tick; Rerender (sample_env false false None)]))
    by (vm_compute; constructor).
  assert (H3 : Forall stays_denied [Tick; ClickClear true; ClearSettled 0 true;
                                    FetchSettled 0 None; ClickClearFilters])
    by (repeat constructor).
  split.
  - exact (conj H0
             (conj (proj1 (proj2 (C3_permission_gate (sample_env false true None)
                                    [] [] 0)) (loaded [plain 1 2]) H0)
                   (proj1 (proj2 (proj2 (proj2
                      (C3_permission_gate (sample_env false true None) [] [] 0))))
                      H0))).
  - exact (conj H1 (conj H2 (conj H3
             (proj2 (proj2 (proj2 (proj2
                (C3_permission_gate (sample_env true false None)
                   [Tick; Rerender (sample_env false false None)]
                   [Tick; ClickClear true; ClearSettled 0 true;
                    FetchSettled 0 None; ClickClearFilters] 5))))
                H1 H2 H3)))).
Defined.

(** C3 as stated fails when the permissions are lost while a confirmed
    clear is awaiting its result: the capability check fails, the component
    renders the explanation, and the clear that then succeeds calls the
    [fetchPackets] of the render it was started in, which issues a request. *)
Lemma C3_counterexample :
  canView (env (after (sample_env true true None)
                      [ClickClear true; Rerender (sample_env false true None)]))
  = false
  /\ render (env (after (sample_env true true None)
                        [ClickClear true; Rerender (sample_env false true None)]))
            (state (after (sample_env true true None)
                          [ClickClear true; Rerender (sample_env false true None)]))
     = Rendered deniedView
  /\ Forall stays_denied [ClearSettled 0 true]
  /\ snd (run (after (sample_env true true None)
                     [ClickClear true; Rerender (sample_env false true None)])
              [ClearSettled 0 true])
     = [GetPackets 0 100 no_filters]
  /\ existsb is_fetch
       (snd (run (after (sample_env true true None)
                        [ClickClear true; Rerender (sample_env false true None)])
                 [ClearSettled 0 true]))
     = true.
Proof.
  split; [reflexivity |]. split; [reflexivity |].
  split; [repeat constructor |]. split; reflexivity.
Qed.

(** ** The mounted component on sample runs *)

Example mount_permitted :
  snd (mount (sample_env true false None))
  = [GetPackets 0 100 no_filters; SetInterval 5000].
Proof. reflexivity. Qed.

Example mount_denied : snd (mount (sample_env false true None)) = [].
Proof. reflexivity. Qed.

Example polling_and_filters :
  snd (run (fst (mount (sample_env true false None)))
           [Tick; ChangePortnum (Some 67); Tick; ClickClearFilters; ClickClearFilters])
  = [ GetPackets 0 100 no_filters;
      ClearInterval; GetPackets 0 100 {| f_portnum := Some 67; f_encrypted := None |};
      SetInterval 5000;
      GetPackets 0 100 {| f_portnum := Some 67; f_encrypted := None |};
      ClearInterval; GetPackets 0 100 no_filters; SetInterval 5000;
      ClearInterval; GetPackets 0 100 no_filters; SetInterval 5000 ].
Proof. reflexivity. Qed.

Example permission_lost :
  snd (run (fst (mount (sample_env true false None)))
           [Rerender (sample_env false false None); Tick; Tick])
  = [ClearInterval].
Proof. reflexivity. Qed.

Example own_packet_hidden :
  packets (sample_env true false (Some "!5f5e0ff"))
          (loaded [plain 1 99999999; plain 2 7])
  = [plain 2 7].
Proof. reflexivity. Qed.

Example selection_cycle :
  map (fun i => selectedPacket (state i))
      [ fst (run (fst (mount (sample_env true false None))) [ClickRow (plain 1 2)]);
        fst (run (fst (mount (sample_env true false None)))
                 [ClickRow (plain 1 2); ClickOverlayClose]) ]
  = [Some (plain 1 2); None].
Proof. reflexivity. Qed.

(** * Further properties of the component *)

(** ** Long names *)

Lemma length_append (a b : string) :
  String.length (a ++ b) = (String.length a + String.length b)%nat.
Proof. induction a as [| c a IH]; simpl; [reflexivity | now rewrite IH]. Qed.

Lemma take_length (n : nat) (s : string) :
  String.length (take n s) = Nat.min n (String.length s).
Proof.
  revert s. induction n as [| n IH]; intros [| c r]; simpl; try reflexivity.
  now rewrite IH.
Qed.

Lemma take_prefix (n : nat) (s : string) : String.prefix (take n s) s = true.
Proof.
  revert s. induction n as [| n IH]; intros [| c r]; simpl; try reflexivity.
  destruct (ascii_dec c c) as [_ | H]; [apply IH | now elim H].
Qed.

(** X1: [truncateLongName] gives nothing exactly for the empty name, gives
    back a name of at most 30 characters unchanged, and turns a longer one
    into its first 30 characters followed by three dots, 33 characters in
    all. *)
Theorem truncateLongName_spec (s : string) :
  (truncateLongName (Some s) = None <-> s = EmptyString)
  /\ (s <> EmptyString -> (String.length s <= 30)%nat ->
      truncateLongName (Some s) = Some s)
  /\ ((30 < String.length s)%nat ->
      truncateLongName (Some s) = Some (take 30 s ++ "...")
      /\ String.length (take 30 s ++ "...") = 33%nat
      /\ String.length (take 30 s) = 30%nat
      /\ String.prefix (take 30 s) s = true).
Proof.
  unfold truncateLongName. split; [| split].
  - destruct s as [| c r]; simpl; [now split |].
    split; [| discriminate]. now destruct (30 <? S (String.length r))%nat.
  - intros Hne Hlen. destruct s as [| c r]; [now elim Hne |]. simpl nonempty.
    cbn [negb]. destruct (Nat.ltb_spec 30 (String.length (String c r))); [lia |].
    reflexivity.
  - intros Hlen. destruct s as [| c r]; [simpl in Hlen; lia |]. simpl nonempty.
    cbn [negb]. destruct (Nat.ltb_spec 30 (String.length (String c r))); [| lia].
    split; [reflexivity |].
    rewrite length_append, take_length. simpl String.length in *.
    repeat split; try lia. apply take_prefix.
Qed.

Lemma truncateLongName_spec_witness :
  ("Base" <> EmptyString /\ (String.length "Base" <= 30)%nat
   /\ truncateLongName (Some "Base") = Some "Base")
  /\ ((30 < String.length "A relay on the roof of the old mill")%nat
      /\ truncateLongName (Some "A relay on the roof of the old mill")
         = Some "A relay on the roof of the old...").
Proof.
  assert (H1 : "Base" <> EmptyString) by discriminate.
  assert (H2 : (String.length "Base" <= 30)%nat) by (simpl; lia).
  assert (H3 : (30 < String.length "A relay on the roof of the old mill")%nat)
    by (simpl; lia).
  split.
  - exact (conj H1 (conj H2 (proj1 (proj2 (truncateLongName_spec "Base")) H1 H2))).
  - exact (conj H3 (proj1 (proj2 (proj2
             (truncateLongName_spec "A relay on the roof of the old mill")) H3))).
Defined.

(** ** Node links *)

Lemma truthy_str_inv (o : option string) :
  truthy_str o = true -> exists s, o = Some s /\ nonempty s = true.
Proof. destruct o as [s |]; simpl; [eauto | discriminate]. Qed.

(** X2: a link in the To cell always leads somewhere: it carries the
    destination identifier of the packet, which is not the broadcast
    sentinel, and a click on it calls the navigation callback of the host
    once with that identifier.  A link in the From cell carries the source
    identifier; a click on it calls the host unless the identifier is the
    broadcast sentinel, in which case nothing happens. *)
Theorem node_links_navigate (e : Env) (packet : PacketLog) (target : string)
    (children : list node) :
  (toCell e packet = [node_link target children] ->
     to_node_id packet = Some target
     /\ target <> broadcast_id
     /\ handleNodeClick e target = [OnNodeClick target])
  /\ (fromCell e packet = [node_link target children] ->
      from_node_id packet = Some target
      /\ (target <> broadcast_id -> handleNodeClick e target = [OnNodeClick target])
      /\ (target = broadcast_id -> handleNodeClick e target = [])).
Proof.
  split.
  - unfold toCell. cbv zeta.
    destruct (is_broadcast (to_node_id packet)) eqn:Hb; [discriminate |].
    destruct (truthy_str (to_node_id packet) && onNodeClick e) eqn:Hlink.
    + apply andb_true_iff in Hlink as [Hid Hcb].
      apply truthy_str_inv in Hid as (s & Hs & Hne). rewrite Hs in *. simpl.
      intros [= <- _]. simpl in Hb. unfold handleNodeClick.
      rewrite Hcb, Hne, Hb. repeat split. now apply String.eqb_neq.
    + destruct (or_str (truncateLongName (to_node_longName packet))
                       (to_node_id packet)) as [s |];
        [destruct (truthy_str (Some s)); simpl; try discriminate |];
        simpl; destruct (to_node packet) as [z |]; try destruct (z =? 0);
        discriminate.
  - unfold fromCell. cbv zeta.
    destruct (truthy_str (from_node_id packet) && onNodeClick e) eqn:Hlink.
    + apply andb_true_iff in Hlink as [Hid Hcb].
      apply truthy_str_inv in Hid as (s & Hs & Hne). rewrite Hs in *. simpl.
      intros [= <- _]. unfold handleNodeClick. rewrite Hcb, Hne. simpl.
      repeat split.
      * intros H. apply String.eqb_neq in H. now rewrite H.
      * intros ->. reflexivity.
    + destruct (or_str (truncateLongName (from_node_longName packet))
                       (from_node_id packet)) as [s |];
        [destruct (truthy_str (Some s)) |]; simpl; discriminate.
Qed.

Lemma node_links_navigate_witness :
  toCell (sample_env true false None)
         (sample 1 2 (Some "!a1b2c3d4") (Some "Hilltop") (None, None) None false None)
  = [node_link "!a1b2c3d4" [Text "Hilltop"]]
  /\ handleNodeClick (sample_env true false None) "!a1b2c3d4"
     = [OnNodeClick "!a1b2c3d4"].
Proof.
  assert (H : toCell (sample_env true false None)
                (sample 1 2 (Some "!a1b2c3d4") (Some "Hilltop") (None, None)
                        None false None)
              = [node_link "!a1b2c3d4" [Text "Hilltop"]]) by reflexivity.
  exact (conj H (proj2 (proj2 (proj1 (node_links_navigate _ _ _ _) H)))).
Defined.

(** ** Type colours *)

Lemma mapped_code_coloured (z : Z) :
  In z mapped_codes -> getPortnumColor (Some z) <> "#9e9e9e".
Proof.
  unfold mapped_codes. intros H. simpl in H.
  repeat (destruct H as [<- | H]; [discriminate |]). contradiction.
Qed.

Lemma unmapped_code_default (z : Z) :
  ~ In z mapped_codes -> getPortnumColor (Some z) = "#9e9e9e".
Proof.
  intros H. unfold getPortnumColor. destruct z as [| p | p]; try reflexivity.
  repeat (match goal with
          | |- context [match ?q with xI _ => _ | xO _ => _ | xH => _ end] =>
              destruct q; cbn iota
          end);
    try reflexivity; exfalso; apply H; unfold mapped_codes; simpl; tauto.
Qed.

(** X3: [getPortnumColor] answers the default grey exactly for the codes it
    does not name, an absent code included: each of the eighteen codes it
    names has a colour of its own palette. *)
Theorem getPortnumColor_default (code : option Z) :
  getPortnumColor code = "#9e9e9e"
  <-> (forall z, code = Some z -> ~ In z mapped_codes).
Proof.
  destruct code as [z |].
  - split.
    + intros H y [= <-] Hin. now apply (mapped_code_coloured z).
    + intros H. apply unmapped_code_default. now apply H.
  - split; [intros _ z; discriminate | reflexivity].
Qed.

Lemma getPortnumColor_default_witness :
  (forall z, Some 2 = Some z -> ~ In z mapped_codes)
  /\ getPortnumColor (Some 2) = "#9e9e9e".
Proof.
  assert (H : forall z, Some 2 = Some z -> ~ In z mapped_codes).
  { intros z [= <-]. unfold mapped_codes. simpl.
    intros H. repeat (destruct H as [H | H]; [discriminate |]). exact H. }
  exact (conj H (proj2 (getPortnumColor_default (Some 2)) H)).
Defined.

(** ** When a render throws *)




(** ** The Type column is wide enough *)

Lemma cell_text_label (packet : PacketLog) :
  portnum_name packet <> Some EmptyString ->
  cell_text (typeCell packet) = typeLabel packet.
Proof.
  intros H. unfold typeCell, typeLabel, cell_text.
  destruct (portnum_name packet) as [name |]; simpl.
  - destruct name as [| c r]; [now elim H | reflexivity].
  - now destruct (portnum packet).
Qed.

(** X5: for every row whose type name is absent or not empty, what the
    Type cell displays is the label the column width was computed from, so
    the column holds the displayed text and the five characters of padding. *)
Theorem type_column_fits (ps : list PacketLog) (packet : PacketLog) :
  In packet ps -> portnum_name packet <> Some EmptyString ->
  cell_text (typeCell packet) = typeLabel packet
  /\ Z.of_nat (String.length (cell_text (typeCell packet))) + 5 <= totalChars ps.
Proof.
  intros Hin Hname. rewrite (cell_text_label packet Hname). split; [reflexivity |].
  pose proof (longestLabel_upper ps packet Hin) as Hle.
  unfold totalChars, paddingChars, defaultWidth, label_length in *. lia.
Qed.

Lemma type_column_fits_witness :
  In (plain 1 2) [plain 3 4; plain 1 2]
  /\ portnum_name (plain 1 2) <> Some EmptyString
  /\ Z.of_nat (String.length (cell_text (typeCell (plain 1 2)))) + 5
     <= totalChars [plain 3 4; plain 1 2].
Proof.
  assert (H1 : In (plain 1 2) [plain 3 4; plain 1 2]) by (right; left; reflexivity).
  assert (H2 : portnum_name (plain 1 2) <> Some EmptyString) by discriminate.
  exact (conj H1 (conj H2 (proj2 (type_column_fits _ _ H1 H2)))).
Defined.

Example type_column_empty_name :
  let packet :=
    {| id := 1; packet_id := None; timestamp := Double 0; from_node := 2;
       from_node_id := None; from_node_longName := None; to_node := None;
       to_node_id := None; to_node_longName := None;
       portnum := Some 12345678; portnum_name := Some EmptyString;
       channel := None; snr := None; rssi := None; hop_start := None;
       hop_limit := None; payload_size := None; payload_preview := None;
       encrypted := false; metadata := None |} in
  typeCell packet = [Num 12345678] /\ typeColumnWidth [packet] = "12ch".
Proof. split; reflexivity. Qed.

(** ** Own-node identifiers made of hexadecimal digits *)







(** ** What polling keeps true *)

Lemma handle_filters (i : Instance) (x : input) :
  filtersId (fst (handle i x)) = filtersId i ->
  filters (state (fst (handle i x))) = filters (state i).
Proof.
  destruct x; simpl; try reflexivity.
  - destruct (timer i); reflexivity.
  - destruct (nth_error (fetching i) n) as [c |]; [| reflexivity].
    destruct result; reflexivity.
  - destruct (nth_error (clearing i) n); reflexivity.
  - destruct (handleClear_begin (env i) confirmed). reflexivity.
  - intros H. exfalso. lia.
  - intros H. exfalso. lia.
  - intros H. exfalso. lia.
Qed.

Lemma closure_same (i j : Instance) :
  same_closure (closure j) (closure i) = true ->
  filters (state j) = filters (state i) ->
  closure j = closure i /\ canView (env j) = canView (env i).
Proof.
  unfold same_closure, closure. simpl. intros H Hf.
  apply andb_true_iff in H as [H Hauto]. apply andb_true_iff in H as [Hview Hid].
  apply Bool.eqb_prop in Hview, Hauto. apply Nat.eqb_eq in Hid.
  now rewrite Hview, Hid, Hauto, Hf.
Qed.

Lemma pollingEffect_synced (i : Instance) :
  synced (fst (pollingEffect (closure i) i)).
Proof.
  unfold synced, pollingEffect.
  assert (Hc : cl_canView (closure i) = canView (env i)) by reflexivity.
  rewrite Hc. destruct (canView (env i)) eqn:Hview; cbn [negb fst];
    unfold closure; cbn [effectDeps timer env state filtersId];
    now rewrite Hview.
Qed.

Lemma step_synced (i : Instance) (x : input) :
  synced i -> synced (fst (step i x)).
Proof.
  intros [Hdeps Htimer]. unfold step.
  destruct (handle_keeps_effect i x) as [Ht Hd].
  pose proof (handle_filters i x) as Hf.
  destruct (handle i x) as [j out]. simpl in Ht, Hd, Hf. unfold commit.
  destruct (same_closure (closure j) (effectDeps j)) eqn:Hsame.
  - rewrite Hd, Hdeps in Hsame.
    assert (Hid : filtersId j = filtersId i).
    { unfold same_closure in Hsame. apply andb_true_iff in Hsame as [H _].
      apply andb_true_iff in H as [_ H]. now apply Nat.eqb_eq in H. }
    destruct (closure_same i j Hsame (Hf Hid)) as [Hc Hview].
    split; simpl; [now rewrite Hd, Hdeps, Hc | now rewrite Ht, Htimer, Hc, Hview].
  - pose proof (pollingEffect_synced j) as Hs.
    destruct (pollingEffect (closure j) j). exact Hs.
Qed.

Lemma run_synced (xs : list input) (i : Instance) :
  synced i -> synced (fst (run i xs)).
Proof.
  revert i. induction xs as [| x xs IH]; intros i Hi; [exact Hi |].
  simpl. pose proof (step_synced i x Hi) as Hs.
  destruct (step i x) as [j out]. specialize (IH j Hs).
  destruct (run j xs). exact IH.
Qed.

Lemma after_synced (e : Env) (xs : list input) : synced (after e xs).
Proof. unfold after. apply run_synced. unfold mount. apply pollingEffect_synced. Qed.

Lemma synced_commit (i : Instance) (out : list effect) :
  same_closure (closure i) (effectDeps i) = true -> commit (i, out) = (i, out).
Proof. unfold commit. now intros ->. Qed.

(** X7: in every state the component reaches from its mount, the interval
    is live exactly when the capability check passes, and the
    [fetchPackets] it calls is the one of the current render.  So a tick
    requests the first hundred packets under the filter criteria now in
    force when the check passes, does nothing when it fails, and changes
    neither the state nor the interval. *)
Theorem polling_follows_the_render (e : Env) (xs : list input) :
  timer (after e xs)
  = (if canView (env (after e xs)) then Some (closure (after e xs)) else None)
  /\ snd (step (after e xs) Tick)
     = (if canView (env (after e xs))
        then [GetPackets 0 100 (filters (state (after e xs)))]
        else [])
  /\ state (fst (step (after e xs) Tick)) = state (after e xs)
  /\ timer (fst (step (after e xs) Tick)) = timer (after e xs).
Proof.
  destruct (after_synced e xs) as [Hdeps Htimer].
  split; [exact Htimer |]. unfold step. simpl handle. rewrite Htimer.
  destruct (canView (env (after e xs))) eqn:Hview.
  - rewrite synced_commit.
    + unfold fetchPackets. simpl. rewrite Hview. now repeat split.
    + simpl. rewrite Hdeps. apply same_closure_refl.
  - rewrite synced_commit; [now repeat split |].
    rewrite Hdeps. apply same_closure_refl.
Qed.

(** ** Timers *)

Lemma started_app (a b : list effect) : started (a ++ b) = started a + started b.
Proof. unfold started. rewrite filter_app, length_app. lia. Qed.

Lemma cancelled_app (a b : list effect) :
  cancelled (a ++ b) = cancelled a + cancelled b.
Proof. unfold cancelled. rewrite filter_app, length_app. lia. Qed.

Lemma handleClear_end_timers (c : Closure) (ok : bool) :
  started (handleClear_end c ok) = 0 /\ cancelled (handleClear_end c ok) = 0.
Proof.
  unfold handleClear_end, fetchPackets.
  destruct ok; [destruct (cl_canView c) |]; split; reflexivity.
Qed.

Lemma handle_timers (i : Instance) (x : input) :
  started (snd (handle i x)) = 0 /\ cancelled (snd (handle i x)) = 0.
Proof.
  destruct x; simpl; try (split; reflexivity).
  - destruct (timer i) as [c |]; [| split; reflexivity].
    simpl. unfold fetchPackets. destruct (cl_canView c); split; reflexivity.
  - destruct (nth_error (fetching i) n) as [c |]; [| split; reflexivity].
    destruct result as [response |]; simpl; [| split; reflexivity].
    destruct (cl_autoScroll c && tableRef i); split; reflexivity.
  - destruct (nth_error (clearing i) n) as [c |]; [| split; reflexivity].
    apply handleClear_end_timers.
  - unfold handleClear_begin.
    destruct (admin (env i)); [destruct confirmed |]; split; reflexivity.
  - unfold handleNodeClick.
    destruct (onNodeClick (env i) && nonempty target
              && negb (String.eqb target broadcast_id)); split; reflexivity.
Qed.

Lemma pollingEffect_balance (c : Closure) (i : Instance) :
  started (snd (pollingEffect c i)) + live i
  = cancelled (snd (pollingEffect c i)) + live (fst (pollingEffect c i)).
Proof.
  unfold pollingEffect, live, fetchPackets.
  destruct (timer i), (cl_canView c); reflexivity.
Qed.

Lemma step_balance (i : Instance) (x : input) :
  started (snd (step i x)) + live i
  = cancelled (snd (step i x)) + live (fst (step i x)).
Proof.
  unfold step. destruct (handle_timers i x) as [Hs Hc].
  destruct (handle_keeps_effect i x) as [Ht _].
  destruct (handle i x) as [j out]. simpl in Hs, Hc, Ht.
  assert (Hlive : live j = live i) by (unfold live; now rewrite Ht).
  unfold commit. destruct (same_closure (closure j) (effectDeps j)).
  - simpl. lia.
  - pose proof (pollingEffect_balance (closure j) j) as Hb.
    destruct (pollingEffect (closure j) j) as [k out']. simpl in *.
    rewrite started_app, cancelled_app. lia.
Qed.

Lemma run_balance (xs : list input) (i : Instance) :
  started (snd (run i xs)) + live i
  = cancelled (snd (run i xs)) + live (fst (run i xs)).
Proof.
  revert i. induction xs as [| x xs IH]; intros i; [reflexivity |].
  simpl. pose proof (step_balance i x) as Hs.
  destruct (step i x) as [j out]. specialize (IH j).
  destruct (run j xs) as [k out']. simpl in *.
  rewrite started_app, cancelled_app. lia.
Qed.

(** X8: the component never holds more than one interval and leaks none.
    Over its whole life, from the mount through any inputs, the intervals
    it started are the ones it cancelled plus the one that is live, if any;
    once the cleanup of the teardown has run, every interval that was
    started has been cancelled. *)
Theorem timers_balance (e : Env) (xs : list input) :
  0 <= live (after e xs) <= 1
  /\ started (snd (mount e) ++ snd (run (fst (mount e)) xs))
     = cancelled (snd (mount e) ++ snd (run (fst (mount e)) xs)) + live (after e xs)
  /\ started (snd (mount e) ++ snd (run (fst (mount e)) xs) ++ unmount (after e xs))
     = cancelled (snd (mount e) ++ snd (run (fst (mount e)) xs)
                  ++ unmount (after e xs)).
Proof.
  assert (Hmount : started (snd (mount e))
                   = cancelled (snd (mount e)) + live (fst (mount e))).
  { unfold mount, pollingEffect, live, fetchPackets. simpl.
    destruct (canView e); reflexivity. }
  pose proof (run_balance xs (fst (mount e))) as Hrun.
  fold (after e xs) in Hrun.
  assert (Hun : started (unmount (after e xs)) = 0
                /\ cancelled (unmount (after e xs)) = live (after e xs)).
  { unfold unmount, live. destruct (timer (after e xs)); split; reflexivity. }
  destruct Hun as [Hun1 Hun2].
  split; [unfold live; destruct (timer (after e xs)); lia |].
  rewrite !started_app, !cancelled_app. lia.
Qed.

(** ** Requests *)

Lemma fetchPackets_page (c : Closure) (f : effect) :
  In f (fetchPackets c) -> f = GetPackets 0 100 (cl_filters c).
Proof.
  unfold fetchPackets. destruct (cl_canView c); simpl; [| contradiction].
  now intros [<- | []].
Qed.

Lemma handle_page (i : Instance) (x : input) (offset limit : Z)
    (f : PacketFilters) :
  In (GetPackets offset limit f) (snd (handle i x)) -> offset = 0 /\ limit = 100.
Proof.
  destruct x; simpl; try contradiction.
  - destruct (timer i) as [c |]; simpl; [| contradiction].
    intros H. apply fetchPackets_page in H. now injection H as -> -> _.
  - destruct (nth_error (fetching i) n) as [c |]; [| contradiction].
    destruct result as [response |]; simpl.
    + destruct (cl_autoScroll c && tableRef i); simpl; [| contradiction].
      now intros [H | []].
    + now intros [H | []].
  - destruct (nth_error (clearing i) n) as [c |]; simpl; [| contradiction].
    unfold handleClear_end. destruct ok.
    + intros H. apply fetchPackets_page in H. now injection H as -> -> _.
    + simpl. intros [H | [H | []]]; discriminate.
  - unfold handleClear_begin.
    destruct (admin (env i)); [destruct confirmed |]; simpl;
      intuition discriminate.
  - intros [H | []]. discriminate.
  - unfold handleNodeClick.
    destruct (onNodeClick (env i) && nonempty target
              && negb (String.eqb target broadcast_id)); simpl;
      intuition discriminate.
Qed.

Lemma step_page (i : Instance) (x : input) (offset limit : Z) (f : PacketFilters) :
  In (GetPackets offset limit f) (snd (step i x)) -> offset = 0 /\ limit = 100.
Proof.
  unfold step. pose proof (handle_page i x offset limit f) as Hh.
  destruct (handle i x) as [j out]. simpl in Hh. unfold commit.
  destruct (same_closure (closure j) (effectDeps j)); [exact Hh |].
  unfold pollingEffect.
  destruct (cl_canView (closure j)) eqn:Hview; cbn [negb snd fst];
    rewrite !in_app_iff.
  - intros [H | [H | [H | [H | []]]]]; [now apply Hh | | | discriminate].
    + destruct (timer j); simpl in H; intuition discriminate.
    + apply fetchPackets_page in H. now injection H as -> -> _.
  - intros [H | H]; [now apply Hh |].
    destruct (timer j); simpl in H; intuition discriminate.
Qed.

(** X9: whatever happens to the component, every request it sends to the
    packet service asks for offset zero and a hundred packets: it never
    pages. *)
Theorem requests_first_page (i : Instance) (xs : list input) (offset limit : Z)
    (f : PacketFilters) :
  In (GetPackets offset limit f) (snd (run i xs)) -> offset = 0 /\ limit = 100.
Proof.
  revert i. induction xs as [| x xs IH]; intros i; simpl; [contradiction |].
  pose proof (step_page i x offset limit f) as Hs.
  destruct (step i x) as [j out]. specialize (IH j).
  destruct (run j xs) as [k out']. simpl in *.
  rewrite in_app_iff. intros [H | H]; auto.
Qed.

Lemma requests_first_page_witness :
  In (GetPackets 0 100 {| f_portnum := Some 3; f_encrypted := None |})
     (snd (run (fst (mount (sample_env true false None)))
               [Tick; ChangePortnum (Some 3)]))
  /\ 0 = 0 /\ 100 = 100.
Proof.
  assert (H : In (GetPackets 0 100 {| f_portnum := Some 3; f_encrypted := None |})
                 (snd (run (fst (mount (sample_env true false None)))
                           [Tick; ChangePortnum (Some 3)])))
    by (vm_compute; tauto).
  exact (conj H (requests_first_page _ _ _ _ _ H)).
Defined.

(** ** What each input leaves alone *)

Lemma commit_state (i : Instance) (out : list effect) :
  state (fst (commit (i, out))) = state i.
Proof.
  unfold commit. destruct (same_closure (closure i) (effectDeps i));
    [reflexivity |].
  unfold pollingEffect. now destruct (negb (cl_canView (closure i))).
Qed.

Lemma step_state (i : Instance) (x : input) :
  state (fst (step i x)) = state (fst (handle i x)).
Proof.
  unfold step. destruct (handle i x) as [j out]. apply commit_state.
Qed.

Lemma step_loading (i : Instance) (x : input) :
  loading (state i) = false -> loading (state (fst (step i x))) = false.
Proof.
  intros H. rewrite step_state. destruct x; simpl; try exact H.
  - now destruct (timer i).
  - destruct (nth_error (fetching i) n); [| exact H]. now destruct result.
  - now destruct (nth_error (clearing i) n).
  - now destruct (handleClear_begin (env i) confirmed).
Qed.

(** X10: the loading indicator is a one-way switch.  The first request
    that settles, with a response or with a failure, turns it off, and
    nothing turns it on again: later polls, filter changes and clears keep
    the table, stale or empty, on screen. *)
Theorem loading_is_one_way (i : Instance) (xs : list input) (n : nat)
    (result : option Response) (c : Closure) :
  (nth_error (fetching i) n = Some c ->
   loading (state (fst (step i (FetchSettled n result)))) = false)
  /\ (loading (state i) = false -> loading (state (fst (run i xs))) = false).
Proof.
  split.
  - intros Hn. rewrite step_state. simpl. rewrite Hn. now destruct result.
  - revert i. induction xs as [| x xs IH]; intros i Hi; [exact Hi |].
    simpl. pose proof (step_loading i x Hi) as Hs.
    destruct (step i x) as [j out]. specialize (IH j Hs).
    now destruct (run j xs).
Qed.

Lemma loading_is_one_way_witness :
  (nth_error (fetching (fst (mount (sample_env true false None)))) 0
   = Some (closure (fst (mount (sample_env true false None))))
   /\ loading (state (fst (step (fst (mount (sample_env true false None)))
                                (FetchSettled 0 None)))) = false)
  /\ (loading (state (fst (step (fst (mount (sample_env true false None)))
                                (FetchSettled 0 None)))) = false
      /\ loading (state (fst (run (fst (step (fst (mount (sample_env true false None)))
                                             (FetchSettled 0 None)))
                                  [ClickClearFilters; Tick; ClickClear true])))
         = false).
Proof.
  assert (H1 : nth_error (fetching (fst (mount (sample_env true false None)))) 0
               = Some (closure (fst (mount (sample_env true false None)))))
    by reflexivity.
  assert (H2 : loading (state (fst (step (fst (mount (sample_env true false None)))
                                         (FetchSettled 0 None)))) = false)
    by reflexivity.
  split.
  - exact (conj H1 (proj1 (loading_is_one_way _ [] 0%nat None _) H1)).
  - exact (conj H2 (proj2 (loading_is_one_way _ [ClickClearFilters; Tick;
                                                  ClickClear true] 0%nat None
                             (closure (fst (mount (sample_env true false None)))))
                          H2)).
Defined.

Lemma step_data (i : Instance) (x : input) :
  not_a_response x ->
  rawPackets (state (fst (step i x))) = rawPackets (state i)
  /\ total (state (fst (step i x))) = total (state i)
  /\ maxCount (state (fst (step i x))) = maxCount (state i).
Proof.
  intros Hx. rewrite step_state. destruct x; simpl; try (repeat split; reflexivity).
  - destruct (timer i); repeat split; reflexivity.
  - destruct (nth_error (fetching i) n); [| repeat split; reflexivity].
    destruct result; [contradiction | repeat split; reflexivity].
  - destruct (nth_error (clearing i) n); repeat split; reflexivity.
  - destruct (handleClear_begin (env i) confirmed). repeat split; reflexivity.
Qed.

(** X11: the displayed packets and the two counters change only when a
    response arrives.  Any run of other inputs (ticks, failed requests,
    filter changes, a confirmed clear and its result, selections) leaves
    the raw list, the total and the maximum as they were: after a clear the
    old rows stay until the refetch answers. *)
Theorem data_changes_only_on_response (i : Instance) (xs : list input) :
  Forall not_a_response xs ->
  rawPackets (state (fst (run i xs))) = rawPackets (state i)
  /\ total (state (fst (run i xs))) = total (state i)
  /\ maxCount (state (fst (run i xs))) = maxCount (state i).
Proof.
  intros Hxs. revert i. induction Hxs as [| x xs Hx Hxs IH]; intros i;
    [repeat split; reflexivity |].
  simpl. destruct (step_data i x Hx) as (H1 & H2 & H3).
  destruct (step i x) as [j out]. specialize (IH j).
  destruct (run j xs). simpl in *. now rewrite <- H1, <- H2, <- H3.
Qed.

Lemma data_changes_only_on_response_witness :
  Forall not_a_response [ClickClear true; ClearSettled 0 true; Tick;
                         FetchSettled 0 None; ChangeEncrypted (Some true)]
  /\ rawPackets
       (state (fst (run (set_state (fst (mount (sample_env true true None)))
                                   (loaded [plain 1 2]))
                        [ClickClear true; ClearSettled 0 true; Tick;
                         FetchSettled 0 None; ChangeEncrypted (Some true)])))
     = [plain 1 2].
Proof.
  assert (H : Forall not_a_response [ClickClear true; ClearSettled 0 true; Tick;
                                     FetchSettled 0 None;
                                     ChangeEncrypted (Some true)])
    by (repeat constructor).
  exact (conj H (proj1 (data_changes_only_on_response
                          (set_state (fst (mount (sample_env true true None)))
                                     (loaded [plain 1 2])) _ H))).
Defined.

Lemma step_selection (i : Instance) (x : input) :
  not_a_selection x ->
  selectedPacket (state (fst (step i x))) = selectedPacket (state i).
Proof.
  intros Hx. rewrite step_state. destruct x; simpl; try reflexivity;
    try contradiction.
  - now destruct (timer i).
  - destruct (nth_error (fetching i) n); [| reflexivity]. now destruct result.
  - now destruct (nth_error (clearing i) n).
  - now destruct (handleClear_begin (env i) confirmed).
Qed.

(** X12: the overlay opens on the packet of the row that was clicked,
    closes on its close action, and is touched by nothing else: through any
    run of other inputs (ticks, responses, failures, filter changes,
    clears, permission changes) the selected packet stays the one it was. *)
Theorem selection_is_stable (i : Instance) (xs : list input) (packet : PacketLog) :
  selectedPacket (state (fst (step i (ClickRow packet)))) = Some packet
  /\ selectedPacket (state (fst (step i ClickOverlayClose))) = None
  /\ (Forall not_a_selection xs ->
      selectedPacket (state (fst (run i xs))) = selectedPacket (state i)).
Proof.
  split; [now rewrite step_state |]. split; [now rewrite step_state |].
  intros Hxs. revert i. induction Hxs as [| x xs Hx Hxs IH]; intros i;
    [reflexivity |].
  simpl. pose proof (step_selection i x Hx) as Hs.
  destruct (step i x) as [j out]. specialize (IH j).
  destruct (run j xs). simpl in *. congruence.
Qed.

Lemma selection_is_stable_witness :
  Forall not_a_selection
    [Tick; FetchSettled 0 (Some {| r_packets := []; r_total := 0;
                                   r_maxCount := 1000 |});
     ClickClearFilters; Rerender (sample_env false false None)]
  /\ selectedPacket
       (state (fst (run (fst (step (fst (mount (sample_env true false None)))
                                   (ClickRow (plain 1 2))))
                        [Tick; FetchSettled 0 (Some {| r_packets := []; r_total := 0;
                                                       r_maxCount := 1000 |});
                         ClickClearFilters; Rerender (sample_env false false None)])))
     = selectedPacket
         (state (fst (step (fst (mount (sample_env true false None)))
                           (ClickRow (plain 1 2))))).
Proof.
  assert (H : Forall not_a_selection
                [Tick; FetchSettled 0 (Some {| r_packets := []; r_total := 0;
                                               r_maxCount := 1000 |});
                 ClickClearFilters; Rerender (sample_env false false None)])
    by (repeat constructor).
  exact (conj H (proj2 (proj2 (selection_is_stable
                                 (fst (step (fst (mount (sample_env true false None)))
                                            (ClickRow (plain 1 2))))
                                 _ (plain 1 2))) H)).
Defined.

(** ** What an interaction costs *)

Lemma same_closure_id (a b : Closure) :
  cl_filtersId a <> cl_filtersId b -> same_closure a b = false.
Proof.
  intros H. unfold same_closure. apply Nat.eqb_neq in H. rewrite H.
  now rewrite andb_false_r.
Qed.

Lemma same_closure_auto (a b : Closure) :
  cl_autoScroll a = negb (cl_autoScroll b) -> same_closure a b = false.
Proof.
  intros H. unfold same_closure. rewrite H.
  destruct (cl_autoScroll b); simpl; now rewrite andb_false_r.
Qed.

Lemma restart_effects (i j : Instance) :
  synced i ->
  env j = env i -> timer j = timer i -> effectDeps j = effectDeps i ->
  same_closure (closure j) (closure i) = false ->
  snd (commit (j, [])) 
  = (if canView (env i)
     then [ClearInterval; GetPackets 0 100 (filters (state j)); SetInterval 5000]
     else [])
  /\ state (fst (commit (j, []))) = state j.
Proof.
  intros [Hdeps Htimer] He Ht Hd Hdiff. split; [| apply commit_state].
  unfold commit. rewrite Hd, Hdeps, Hdiff. unfold pollingEffect, fetchPackets.
  rewrite Ht, Htimer.
  assert (Hc : cl_canView (closure j) = canView (env i))
    by (unfold closure; simpl; now rewrite He).
  rewrite Hc. now destruct (canView (env i)).
Qed.

(** X13: changing a filter criterion, clearing the filters and toggling
    auto-scroll each replace the [fetchPackets] of the component, so when
    the capability check passes each of them restarts polling at once: the
    interval is cancelled, the first hundred packets are requested under
    the criteria just set, and a new interval is started.  Clearing filters
    that were already empty does so too.  When the check fails they emit
    nothing. *)
Theorem fetch_dependencies_restart_polling (e : Env) (xs : list input) (x : input) :
  changes_fetch x = true ->
  snd (step (after e xs) x)
  = (if canView (env (after e xs))
     then [ClearInterval;
           GetPackets 0 100 (filters (state (fst (step (after e xs) x))));
           SetInterval 5000]
     else []).
Proof.
  intros Hx. pose proof (after_synced e xs) as Hs.
  set (i := after e xs) in *.
  assert (H : forall j, handle i x = (j, []) ->
                env j = env i -> timer j = timer i -> effectDeps j = effectDeps i ->
                same_closure (closure j) (closure i) = false ->
                snd (step i x)
                = (if canView (env i)
                   then [ClearInterval;
                         GetPackets 0 100 (filters (state (fst (step i x))));
                         SetInterval 5000]
                   else [])).
  { intros j Hh He Ht Hd Hdiff. unfold step. rewrite Hh.
    destruct (restart_effects i j Hs He Ht Hd Hdiff) as [Hout Hst].
    now rewrite Hout, Hst. }
  destruct x; try discriminate Hx.
  - eapply H; try reflexivity. apply same_closure_auto. reflexivity.
  - eapply H; try reflexivity. apply same_closure_id. simpl. lia.
  - eapply H; try reflexivity. apply same_closure_id. simpl. lia.
  - eapply H; try reflexivity. apply same_closure_id. simpl. lia.
Qed.

Lemma fetch_dependencies_restart_polling_witness :
  changes_fetch ClickClearFilters = true
  /\ snd (step (after (sample_env true false None) [ClickClearFilters])
               ClickClearFilters)
     = [ClearInterval; GetPackets 0 100 no_filters; SetInterval 5000].
Proof.
  assert (H : changes_fetch ClickClearFilters = true) by reflexivity.
  exact (conj H (fetch_dependencies_restart_polling (sample_env true false None)
                   [ClickClearFilters] ClickClearFilters H)).
Defined.

(** X14: opening or closing the filter panel, switching the hide-own-packets
    toggle, selecting a row and closing the overlay are local: in every
    state reached from a mount they emit nothing, send no request, and leave
    the raw list, the interval and the outstanding calls as they were. *)
Theorem local_interactions_are_silent (e : Env) (xs : list input) (x : input) :
  local_only x = true ->
  snd (step (after e xs) x) = []
  /\ rawPackets (state (fst (step (after e xs) x))) = rawPackets (state (after e xs))
  /\ timer (fst (step (after e xs) x)) = timer (after e xs)
  /\ fetching (fst (step (after e xs) x)) = fetching (after e xs)
  /\ clearing (fst (step (after e xs) x)) = clearing (after e xs).
Proof.
  intros Hx. destruct (after_synced e xs) as [Hdeps _].
  set (i := after e xs) in *. unfold step.
  destruct x; try discriminate Hx; simpl handle;
    (rewrite synced_commit;
     [now repeat split
     | unfold set_state, closure in *; simpl; rewrite Hdeps;
       apply same_closure_refl]).
Qed.

Lemma local_interactions_are_silent_witness :
  local_only (ChangeHideOwn false) = true
  /\ snd (step (after (sample_env true false (Some "!43588558")) [Tick])
               (ChangeHideOwn false)) = [].
Proof.
  assert (H : local_only (ChangeHideOwn false) = true) by reflexivity.
  exact (conj H (proj1 (local_interactions_are_silent
                          (sample_env true false (Some "!43588558")) [Tick]
                          (ChangeHideOwn false) H))).
Defined.

(** ** The clear action inside the mounted component *)

Lemma nth_error_end {A : Type} (l : list A) (a : A) :
  nth_error (l ++ [a]) (List.length l) = Some a.
Proof. induction l as [| b l IH]; [reflexivity | exact IH]. Qed.

Lemma nth_error_length {A : Type} (l : list A) :
  nth_error l (List.length l) = None.
Proof. induction l as [| b l IH]; [reflexivity | exact IH]. Qed.

Lemma drop_last {A : Type} (l : list A) (a : A) :
  drop_nth (List.length l) (l ++ [a]) = l.
Proof. induction l as [| b l IH]; [reflexivity | simpl; now rewrite IH]. Qed.

Lemma click_clear_step (i : Instance) (confirmed : bool) :
  synced i ->
  step i (ClickClear confirmed)
  = (set_pending i (fetching i)
       (clearing i ++ (if snd (handleClear_begin (env i) confirmed)
                       then [closure i] else [])),
     fst (handleClear_begin (env i) confirmed)).
Proof.
  intros [Hdeps _]. unfold step. simpl handle.
  destruct (handleClear_begin (env i) confirmed) as [out called].
  apply synced_commit. unfold set_pending, closure in *. simpl. rewrite Hdeps.
  apply same_closure_refl.
Qed.

Lemma clear_settled_step (j : Instance) (n : nat) (ok : bool) :
  same_closure (closure j) (effectDeps j) = true ->
  step j (ClearSettled n ok)
  = match nth_error (clearing j) n with
    | Some c =>
        (set_pending j (fetching j ++ (if ok then issued c else []))
                     (drop_nth n (clearing j)),
         handleClear_end c ok)
    | None => (j, [])
    end.
Proof.
  intros Hsame. unfold step. simpl handle.
  destruct (nth_error (clearing j) n) as [c |]; apply synced_commit; exact Hsame.
Qed.

(** X15: in every state reached from a mount, a click on the clear button
    followed by the result of the call it made emits, in that order, exactly
    what one run of [handleClear] emits for the same answer and the same
    result, and changes no state; afterwards the calls to [clearPackets]
    that are outstanding are the ones that were before. *)
Theorem clear_click_then_result (e : Env) (xs : list input) (confirmed ok : bool) :
  snd (run (after e xs)
           [ClickClear confirmed; ClearSettled (List.length (clearing (after e xs))) ok])
  = snd (handleClear (env (after e xs)) (closure (after e xs)) confirmed ok
                     (state (after e xs)))
  /\ state (fst (run (after e xs)
                     [ClickClear confirmed;
                      ClearSettled (List.length (clearing (after e xs))) ok]))
     = state (after e xs)
  /\ clearing (fst (run (after e xs)
                        [ClickClear confirmed;
                         ClearSettled (List.length (clearing (after e xs))) ok]))
     = clearing (after e xs).
Proof.
  pose proof (after_synced e xs) as Hs. set (i := after e xs) in *.
  cbn [run]. rewrite (click_clear_step i confirmed Hs).
  destruct Hs as [Hdeps _]. rewrite clear_settled_step.
  2:{ unfold set_pending, closure in *. simpl. rewrite Hdeps.
      apply same_closure_refl. }
  unfold handleClear.
  destruct (handleClear_begin (env i) confirmed) as [out called].
  cbn [fst snd clearing set_pending]. destruct called.
  - rewrite nth_error_end, drop_last. cbn [fst snd state clearing set_pending].
    rewrite app_nil_r. now repeat split.
  - rewrite app_nil_r, nth_error_length. cbn [fst snd].
    rewrite !app_nil_r. now repeat split.
Qed.

Example clear_click_then_result_refused :
  snd (run (after (sample_env true true None) [Tick])
           [ClickClear false; ClearSettled 0 true])
  = [Confirm "Are you sure you want to clear all packet logs?"].
Proof. reflexivity. Qed.

(** ** Permission changes *)

(** X16: the component follows the permission state.  In every state
    reached from a mount, a render that gains the permissions requests the
    first hundred packets under the current criteria and starts the
    interval; a render that loses them cancels the interval and does
    nothing else; a render that leaves the capability check as it was emits
    nothing. *)
Theorem permission_change (e : Env) (xs : list input) (e' : Env) :
  (canView (env (after e xs)) = false -> canView e' = true ->
   snd (step (after e xs) (Rerender e'))
   = [GetPackets 0 100 (filters (state (after e xs))); SetInterval 5000])
  /\ (canView (env (after e xs)) = true -> canView e' = false ->
      snd (step (after e xs) (Rerender e')) = [ClearInterval])
  /\ (canView e' = canView (env (after e xs)) ->
      snd (step (after e xs) (Rerender e')) = []).
Proof.
  destruct (after_synced e xs) as [Hdeps Htimer]. set (i := after e xs) in *.
  unfold step, commit, pollingEffect, fetchPackets, same_closure.
  cbn [handle closure effectDeps timer env state filtersId fst snd
       cl_canView cl_filters cl_filtersId cl_autoScroll].
  rewrite Hdeps, Htimer. unfold closure.
  cbn [cl_canView cl_filters cl_filtersId cl_autoScroll].
  rewrite Nat.eqb_refl, Bool.eqb_reflx.
  split; [| split].
  - intros -> ->. reflexivity.
  - intros -> ->. reflexivity.
  - intros ->. now rewrite Bool.eqb_reflx.
Qed.

Lemma permission_change_witness :
  (canView (env (after (sample_env false false None) [Tick])) = false
   /\ canView (sample_env true false None) = true
   /\ snd (step (after (sample_env false false None) [Tick])
                (Rerender (sample_env true false None)))
      = [GetPackets 0 100
           (filters (state (after (sample_env false false None) [Tick])));
         SetInterval 5000])
  /\ (canView (env (after (sample_env true false None) [Tick])) = true
      /\ canView (sample_env false false None) = false
      /\ snd (step (after (sample_env true false None) [Tick])
                   (Rerender (sample_env false false None)))
         = [ClearInterval]).
Proof.
  split.
  - refine (conj eq_refl (conj eq_refl _)).
    exact (proj1 (permission_change (sample_env false false None) [Tick]
                    (sample_env true false None)) eq_refl eq_refl).
  - refine (conj eq_refl (conj eq_refl _)).
    exact (proj1 (proj2 (permission_change (sample_env true false None) [Tick]
                           (sample_env false false None))) eq_refl eq_refl).
Defined.
